(** * genrev: the generator / reviewer pipeline of [agent_system.py]

    A shallow embedding of [GeneratorAgent], [ReviewerAgent] and
    [AgentPipeline].  Python values are the values a JSON parser can
    produce; the language-model chain ([prompt | llm | parser]) is an
    external service and appears as an oracle in the [Runtime]; every
    method runs in a reader / trace / exception monad, so that the calls a
    run makes and the exception it ends with can be stated. *)

From Stdlib Require Import String Ascii ZArith List Bool Floats DecimalString Lia.
Import ListNotations.
Set Warnings "-register-all,-inexact-float".
Local Open Scope list_scope.
Local Open Scope string_scope.

(** ** Python values *)

(** What [json.loads] can build: [None], booleans, integers, floats,
    strings, lists and dictionaries with string keys.  A [str] is kept as
    its UTF-8 bytes; a [dict] as its items in insertion order. *)
Inductive pyval : Type :=
| PNone
| PBool (b : bool)
| PInt (z : Z)
| PFloat (f : float)
| PStr (s : string)
| PList (l : list pyval)
| PDict (d : list (string * pyval)).

(** An exception object: its class, its arguments and its [__cause__]. *)
Inductive PyExc : Type :=
| Exc (cls : string) (args : list string) (cause : option PyExc).

Definition exc_class (e : PyExc) : string := let 'Exc c _ _ := e in c.
Definition exc_cause (e : PyExc) : option PyExc := let 'Exc _ _ c := e in c.

Definition ValueError (msg : string) : PyExc := Exc "ValueError" [msg] None.
Definition KeyError (key : string) : PyExc := Exc "KeyError" [key] None.
Definition TypeError (msg : string) : PyExc := Exc "TypeError" [msg] None.

(** How a call ends: with a value or with an exception. *)
Inductive Outcome (A : Type) : Type :=
| Returned (a : A)
| Raised (e : PyExc).
Arguments Returned {A} a.
Arguments Raised {A} e.

(** ** Built-in operations on values *)

(** [bool(v)], as used by [if v:]. *)
Definition truthy (v : pyval) : bool :=
  match v with
  | PNone => false
  | PBool b => b
  | PInt z => negb (z =? 0)%Z
  | PFloat f => negb (f =? 0)%float
  | PStr s => negb (s =? "")
  | PList l => match l with [] => false | _ :: _ => true end
  | PDict d => match d with [] => false | _ :: _ => true end
  end.

(** [v == s] for a string literal [s]: only the very string is equal. *)
Definition eq_str (v : pyval) (s : string) : bool :=
  match v with
  | PStr t => t =? s
  | _ => false
  end.

Fixpoint dict_get (d : list (string * pyval)) (k : string) : option pyval :=
  match d with
  | [] => None
  | (k', v) :: d' => if k' =? k then Some v else dict_get d' k
  end.

(** [d[k] = v] on a dictionary: replaces the value in place, or appends. *)
Fixpoint dict_set (d : list (string * pyval)) (k : string) (v : pyval)
  : list (string * pyval) :=
  match d with
  | [] => [(k, v)]
  | (k', v') :: d' =>
      if k' =? k then (k', v) :: d' else (k', v') :: dict_set d' k v
  end.

(** [type(v).__name__]. *)
Definition type_name (v : pyval) : string :=
  match v with
  | PNone => "NoneType"
  | PBool _ => "bool"
  | PInt _ => "int"
  | PFloat _ => "float"
  | PStr _ => "str"
  | PList _ => "list"
  | PDict _ => "dict"
  end.

(** [v[k]] for a string key [k]. *)
Definition getitem (v : pyval) (k : string) : Outcome pyval :=
  match v with
  | PDict d =>
      match dict_get d k with
      | Some x => Returned x
      | None => Raised (KeyError k)
      end
  | PList _ =>
      Raised (TypeError "list indices must be integers or slices, not str")
  | PStr _ => Raised (TypeError "string indices must be integers, not 'str'")
  | _ => Raised (TypeError ("'" ++ type_name v
                            ++ "' object is not subscriptable"))
  end.

Definition newline : string := String (ascii_of_nat 10) "".
Definition dquote : string := String (ascii_of_nat 34) "".

(** [sep.join(parts)]. *)
Fixpoint join (sep : string) (parts : list string) : string :=
  match parts with
  | [] => ""
  | [p] => p
  | p :: ps => p ++ sep ++ join sep ps
  end.

(** The characters of a [str]: the UTF-8 bytes are cut before every byte
    that is not a continuation byte ([10xxxxxx]). *)
Definition is_continuation (c : ascii) : bool :=
  let n := nat_of_ascii c in (128 <=? n)%nat && (n <? 192)%nat.

Fixpoint chars_aux (s : string) : string * list string :=
  match s with
  | "" => ("", [])
  | String c rest =>
      let '(cont, acc) := chars_aux rest in
      if is_continuation c then (String c cont, acc)
      else ("", String c cont :: acc)
  end.

Definition chars (s : string) : list string := snd (chars_aux s).

(** [iter(v)], fully consumed. *)
Definition iterate (v : pyval) : Outcome (list pyval) :=
  match v with
  | PList l => Returned l
  | PStr s => Returned (map PStr (chars s))
  | PDict d => Returned (map (fun kv => PStr (fst kv)) d)
  | _ => Raised (TypeError ("'" ++ type_name v ++ "' object is not iterable"))
  end.

Definition str_of_int (z : Z) : string := NilZero.string_of_int (Z.to_int z).

(** The text an f-string puts for [{item}]: [str(item)].  The [repr] of
    floats and of containers is left to the runtime. *)
Definition format_item (repr : pyval -> string) (v : pyval) : string :=
  match v with
  | PStr s => s
  | PNone => "None"
  | PBool true => "True"
  | PBool false => "False"
  | PInt z => str_of_int z
  | _ => repr v
  end.

(** ** The declared output models *)

(** A pydantic field type, as far as the three models use them. *)
Inductive FieldType : Type :=
| TStr
| TLiteral (alternatives : list string)
| TList (item : FieldType)
| TModel (name : string) (fields : list (string * FieldType * string)).

(** [class MCQ(BaseModel)]: each field with its type and description. *)
Definition MCQ : FieldType :=
  TModel "MCQ"
    [("question", TStr, "The question text");
     ("options", TList TStr, "Four answer options");
     ("answer", TStr, "The correct answer")].

(** [class GeneratorOutput(BaseModel)]. *)
Definition GeneratorOutput : FieldType :=
  TModel "GeneratorOutput"
    [("explanation", TStr, "Educational explanation of the topic");
     ("mcqs", TList MCQ, "List of multiple choice questions")].

(** [class ReviewerOutput(BaseModel)]. *)
Definition ReviewerOutput : FieldType :=
  TModel "ReviewerOutput"
    [("status", TLiteral ["pass"; "fail"], "Pass or fail status");
     ("feedback", TList TStr, "List of specific feedback items")].

(** ** The chain and the runtime *)

Record ChatGroq : Type := { model : string; temperature : float }.

Record JsonOutputParser : Type := { pydantic_object : FieldType }.

(** [ChatPromptTemplate.from_messages]: the (role, template) pairs. *)
Definition ChatPromptTemplate : Type := list (string * string).

(** [prompt | llm | parser]. *)
Record Chain : Type :=
  { chain_prompt : ChatPromptTemplate;
    chain_llm : ChatGroq;
    chain_parser : JsonOutputParser }.

(** What a run leaves behind, in order: the lines printed, the clients
    built, the entries into [generate] and [review], and the requests
    sent through a chain. *)
Inductive Event : Type :=
| Print (line : string)
| NewChatGroq (llm : ChatGroq)
| Generate (grade : Z) (topic : string) (feedback : pyval)
| Review (grade : Z) (topic : string) (content : pyval)
| Invoke (chain : Chain) (input : pyval).

Definition Trace : Type := list Event.

(** Everything the program takes from outside: the process environment,
    three library functions, and the answer of a chain to a request, which
    may depend on all that happened before and may be an exception.  The
    constructors of the library objects ([ChatGroq], [JsonOutputParser],
    [ChatPromptTemplate]) and the three library functions are taken to
    return. *)
Record Runtime : Type :=
  { getenv : string -> option string;
    py_repr : pyval -> string;
    json_dumps : pyval -> string;
    get_format_instructions : JsonOutputParser -> string;
    chain_invoke : Trace -> Chain -> pyval -> Outcome pyval }.

(** ** The monad of methods *)

Definition M (A : Type) : Type := Runtime -> Trace -> Outcome A * Trace.

Definition ret {A} (a : A) : M A := fun _ tr => (Returned a, tr).

Definition bind {A B} (m : M A) (k : A -> M B) : M B :=
  fun rt tr =>
    match m rt tr with
    | (Returned a, tr') => k a rt tr'
    | (Raised e, tr') => (Raised e, tr')
    end.

Definition raise {A} (e : PyExc) : M A := fun _ tr => (Raised e, tr).

Definition lift {A} (o : Outcome A) : M A := fun _ tr => (o, tr).

Definition runtime : M Runtime := fun rt tr => (Returned rt, tr).

Definition emit (e : Event) : M unit := fun _ tr => (Returned tt, (tr ++ [e])%list).

(** [print(line)] on a standard output that takes every line; [print_on]
    below is [print] on an output that may refuse one. *)
Definition print (line : string) : M unit := emit (Print line).

Definition os_getenv (name : string) : M (option string) :=
  fun rt tr => (Returned (getenv rt name), tr).

(** [chain.invoke(input)]: the request is recorded, the runtime answers. *)
Definition invoke (c : Chain) (input : pyval) : M pyval :=
  fun rt tr => (chain_invoke rt tr c input, (tr ++ [Invoke c input])%list).

Declare Scope py_scope.
Delimit Scope py_scope with py.
Notation "x <- m ;; k" := (bind m (fun x => k))
  (at level 61, m at next level, right associativity) : py_scope.
Notation "m ;; k" := (bind m (fun _ => k))
  (at level 61, right associativity) : py_scope.
Local Open Scope py_scope.

(** [not api_key] for the result of [os.getenv]. *)
Definition not_set (api_key : option string) : bool :=
  match api_key with
  | None => true
  | Some s => s =? ""
  end.

(** ** GeneratorAgent *)

Module GeneratorAgent.

Record t : Type :=
  { llm : ChatGroq;
    parser : JsonOutputParser;
    prompt : ChatPromptTemplate;
    chain : Chain }.

Definition system_template : string :=
  "You are an expert educational content creator. 
Generate age-appropriate educational content including an explanation and multiple choice questions.

{format_instructions}

IMPORTANT: Your output must be valid JSON matching the exact structure specified.".

Definition user_template : string :=
  "Create educational content for:
Grade: {grade}
Topic: {topic}

{feedback_section}

Requirements:
- Language must be appropriate for grade {grade} students
- Explanation should be clear, engaging, and accurate
- Create exactly 4 multiple choice questions
- Each MCQ must have 4 options
- Ensure concepts are introduced before being tested

Return ONLY valid JSON, no markdown formatting or code blocks.".

(** [GeneratorAgent()]. *)
Definition __init__ : M t :=
  api_key <- os_getenv "GROQ_API_KEY" ;;
  if not_set api_key
  then raise (ValueError "GROQ_API_KEY environment variable is not set")
  else
    let llm := {| model := "llama-3.3-70b-versatile";
                  temperature := 0.7%float |} in
    emit (NewChatGroq llm) ;;
    let parser := {| pydantic_object := GeneratorOutput |} in
    let prompt := [("system", system_template); ("user", user_template)] in
    ret {| llm := llm; parser := parser; prompt := prompt;
           chain := {| chain_prompt := prompt; chain_llm := llm;
                       chain_parser := parser |} |}.

Definition feedback_header : string :=
  newline ++ "FEEDBACK FROM REVIEWER (Address these issues):" ++ newline.

(** The f-string of the feedback section, for the items of [feedback]. *)
Definition feedback_text (repr : pyval -> string) (items : list pyval)
  : string :=
  feedback_header
  ++ join newline (map (fun item => "- " ++ format_item repr item) items)
  ++ newline.

(** [self.generate(grade, topic, feedback)]; [feedback] defaults to
    [None]. *)
Definition generate (self : t) (grade : Z) (topic : string)
    (feedback : pyval) : M pyval :=
  emit (Generate grade topic feedback) ;;
  rt <- runtime ;;
  feedback_section <-
    (if truthy feedback
     then items <- lift (iterate feedback) ;;
          ret (feedback_text (py_repr rt) items)
     else ret "") ;;
  result <-
    invoke (chain self)
      (PDict [("grade", PInt grade);
              ("topic", PStr topic);
              ("feedback_section", PStr feedback_section);
              ("format_instructions",
               PStr (get_format_instructions rt (parser self)))]) ;;
  ret result.

End GeneratorAgent.

(** ** ReviewerAgent *)

Module ReviewerAgent.

Record t : Type :=
  { llm : ChatGroq;
    parser : JsonOutputParser;
    prompt : ChatPromptTemplate;
    chain : Chain }.

Definition system_template : string :=
  "You are an expert educational content reviewer.
Evaluate educational content for age-appropriateness, conceptual correctness, and clarity.

{format_instructions}

IMPORTANT: Your output must be valid JSON matching the exact structure specified.".

Definition user_template : string :=
  "Review this educational content:

Grade Level: {grade}
Topic: {topic}

Content to Review:
{content}

Evaluation Criteria:
1. Age Appropriateness: Is the language suitable for grade {grade}?
2. Conceptual Correctness: Are all concepts accurate?
3. Clarity: Is the explanation clear and well-structured?
4. Question Quality: Do MCQs test introduced concepts appropriately?

Provide specific, actionable feedback. Set status to " ++ dquote ++ "fail" ++ dquote ++ " if there are issues that need fixing.

Return ONLY valid JSON, no markdown formatting or code blocks.".

(** [ReviewerAgent()]. *)
Definition __init__ : M t :=
  api_key <- os_getenv "GROQ_API_KEY" ;;
  if not_set api_key
  then raise (ValueError "GROQ_API_KEY environment variable is not set")
  else
    let llm := {| model := "llama-3.3-70b-versatile";
                  temperature := 0.3%float |} in
    emit (NewChatGroq llm) ;;
    let parser := {| pydantic_object := ReviewerOutput |} in
    let prompt := [("system", system_template); ("user", user_template)] in
    ret {| llm := llm; parser := parser; prompt := prompt;
           chain := {| chain_prompt := prompt; chain_llm := llm;
                       chain_parser := parser |} |}.

(** [self.review(grade, topic, content)]. *)
Definition review (self : t) (grade : Z) (topic : string)
    (content : pyval) : M pyval :=
  emit (Review grade topic content) ;;
  rt <- runtime ;;
  result <-
    invoke (chain self)
      (PDict [("grade", PInt grade);
              ("topic", PStr topic);
              ("content", PStr (json_dumps rt content));
              ("format_instructions",
               PStr (get_format_instructions rt (parser self)))]) ;;
  ret result.

End ReviewerAgent.

(** ** AgentPipeline *)

Module AgentPipeline.

Record t : Type :=
  { generator : GeneratorAgent.t;
    reviewer : ReviewerAgent.t }.

(** [AgentPipeline()]. *)
Definition __init__ : M t :=
  g <- GeneratorAgent.__init__ ;;
  r <- ReviewerAgent.__init__ ;;
  ret {| generator := g; reviewer := r |}.

(** [results[k] = v] on the local dictionary [results]. *)
Definition setitem (results : list (string * pyval)) (k : string)
    (v : pyval) : list (string * pyval) :=
  dict_set results k v.

(** [self.run(grade, topic)]. *)
Definition run (self : t) (grade : Z) (topic : string) : M pyval :=
  let results :=
    [("input", PDict [("grade", PInt grade); ("topic", PStr topic)]);
     ("initial_generation", PNone);
     ("initial_review", PNone);
     ("refinement", PNone);
     ("final_output", PNone)] in
  print ("🤖 Generator Agent: Creating content for Grade "
         ++ str_of_int grade ++ " - " ++ topic) ;;
  initial_content <-
    GeneratorAgent.generate (generator self) grade topic PNone ;;
  let results := setitem results "initial_generation" initial_content in
  print "🔍 Reviewer Agent: Evaluating content..." ;;
  review <-
    ReviewerAgent.review (reviewer self) grade topic initial_content ;;
  let results := setitem results "initial_review" review in
  status <- lift (getitem review "status") ;;
  if eq_str status "fail"
  then
    print "⚠️  Review failed. Refining content..." ;;
    feedback <- lift (getitem review "feedback") ;;
    refined_content <-
      GeneratorAgent.generate (generator self) grade topic feedback ;;
    feedback_addressed <- lift (getitem review "feedback") ;;
    let results :=
      setitem results "refinement"
        (PDict [("content", refined_content);
                ("feedback_addressed", feedback_addressed)]) in
    let results := setitem results "final_output" refined_content in
    ret (PDict results)
  else
    print "✅ Review passed!" ;;
    let results := setitem results "final_output" initial_content in
    ret (PDict results).

End AgentPipeline.

(** ** Conformance to a declared model *)

(** Where a validation error lies: under a field, or at an index. *)
Inductive Loc : Type :=
| Field (name : string)
| Index (i : nat).

(** A validation error: the location and the kind of the first fault. *)
Definition ValidationError : Type := (list Loc * string)%type.

Definition under (l : Loc) (e : ValidationError) : ValidationError :=
  (l :: fst e, snd e).

(** The items of a list, checked in order from index [i] on. *)
Fixpoint validate_items (check : pyval -> option ValidationError) (i : nat)
    (l : list pyval) : option ValidationError :=
  match l with
  | [] => None
  | x :: l' =>
      match check x with
      | Some e => Some (under (Index i) e)
      | None => validate_items check (S i) l'
      end
  end.

(** The declared fields of a model, checked in order on the dictionary
    [d]. *)
Fixpoint validate_fields (check : FieldType -> pyval -> option ValidationError)
    (d : list (string * pyval)) (fs : list (string * FieldType * string))
  : option ValidationError :=
  match fs with
  | [] => None
  | (name, ft, _) :: fs' =>
      match dict_get d name with
      | None => Some ([Field name], "missing")
      | Some x =>
          match check ft x with
          | Some e => Some (under (Field name) e)
          | None => validate_fields check d fs'
          end
      end
  end.

(** Whether a parsed value conforms to a declared model: a model wants a
    dictionary holding every declared field, each with a value of its
    declared type; a list, every item of the item type; a literal, one of
    its alternatives.  Extra keys are ignored.  [None] means the value
    conforms, otherwise a fault is named.  No method of the program runs
    this check, the models are only handed to the parser of a chain; it
    serves to say of a value whether it has the declared shape. *)
Fixpoint validate (t : FieldType) (v : pyval) : option ValidationError :=
  match t with
  | TStr =>
      match v with
      | PStr _ => None
      | _ => Some ([], "string_type")
      end
  | TLiteral alternatives =>
      match v with
      | PStr s =>
          if existsb (String.eqb s) alternatives then None
          else Some ([], "literal_error")
      | _ => Some ([], "literal_error")
      end
  | TList item =>
      match v with
      | PList l => validate_items (validate item) 0 l
      | _ => Some ([], "list_type")
      end
  | TModel _ fields =>
      match v with
      | PDict d => validate_fields validate d fields
      | _ => Some ([], "model_type")
      end
  end.

(** ** The properties the claims speak of *)



Definition is_Generate (e : Event) : bool :=
  match e with Generate _ _ _ => true | _ => false end.

Definition is_Review (e : Event) : bool :=
  match e with Review _ _ _ => true | _ => false end.

(** How often [generate] and [review] were entered in a trace. *)
Definition generate_calls (tr : Trace) : nat := length (filter is_Generate tr).
Definition review_calls (tr : Trace) : nat := length (filter is_Review tr).

(** The requests sent through chains in a trace, in order. *)
Fixpoint requests (tr : Trace) : list (Chain * pyval) :=
  match tr with
  | [] => []
  | Invoke c input :: tr' => (c, input) :: requests tr'
  | _ :: tr' => requests tr'
  end.

(** The exception [e] is a [PipelineError] wrapping [cause]. *)
Definition PipelineError_wrapping (cause e : PyExc) : Prop :=
  exc_class e = "PipelineError" /\ exc_cause e = Some cause.

(** The dictionary [generate] sends through its chain. *)
Definition generator_input (rt : Runtime) (self : GeneratorAgent.t)
    (grade : Z) (topic : string) (feedback_section : string) : pyval :=
  PDict [("grade", PInt grade);
         ("topic", PStr topic);
         ("feedback_section", PStr feedback_section);
         ("format_instructions",
          PStr (get_format_instructions rt (GeneratorAgent.parser self)))].

(** The lines [run] prints. *)
Definition line_creating (grade : Z) (topic : string) : string :=
  "🤖 Generator Agent: Creating content for Grade "
  ++ str_of_int grade ++ " - " ++ topic.
Definition line_evaluating : string := "🔍 Reviewer Agent: Evaluating content...".
Definition line_refining : string := "⚠️  Review failed. Refining content...".
Definition line_passed : string := "✅ Review passed!".

(** The record [run] returns on the accepted and on the refined path. *)
Definition accepted_record (grade : Z) (topic : string)
    (initial_content review : pyval) : pyval :=
  PDict [("input", PDict [("grade", PInt grade); ("topic", PStr topic)]);
         ("initial_generation", initial_content);
         ("initial_review", review);
         ("refinement", PNone);
         ("final_output", initial_content)].

Definition refined_record (grade : Z) (topic : string)
    (initial_content review refined_content feedback : pyval) : pyval :=
  PDict [("input", PDict [("grade", PInt grade); ("topic", PStr topic)]);
         ("initial_generation", initial_content);
         ("initial_review", review);
         ("refinement",
          PDict [("content", refined_content);
                 ("feedback_addressed", feedback)]);
         ("final_output", refined_content)].

(** ** Definitions used by the properties *)

(** The feedback section [generate] computes for a [feedback] argument. *)
Definition feedback_section_of (rt : Runtime) (feedback : pyval)
  : Outcome string :=
  if truthy feedback
  then match iterate feedback with
       | Returned items =>
           Returned (GeneratorAgent.feedback_text (py_repr rt) items)
       | Raised e => Raised e
       end
  else Returned "".

(** The agents every successful construction yields. *)
Definition the_generator : GeneratorAgent.t :=
  let llm := {| model := "llama-3.3-70b-versatile";
                temperature := 0.7%float |} in
  let parser := {| pydantic_object := GeneratorOutput |} in
  let prompt := [("system", GeneratorAgent.system_template);
                 ("user", GeneratorAgent.user_template)] in
  {| GeneratorAgent.llm := llm;
     GeneratorAgent.parser := parser;
     GeneratorAgent.prompt := prompt;
     GeneratorAgent.chain :=
       {| chain_prompt := prompt; chain_llm := llm; chain_parser := parser |} |}.

Definition the_reviewer : ReviewerAgent.t :=
  let llm := {| model := "llama-3.3-70b-versatile";
                temperature := 0.3%float |} in
  let parser := {| pydantic_object := ReviewerOutput |} in
  let prompt := [("system", ReviewerAgent.system_template);
                 ("user", ReviewerAgent.user_template)] in
  {| ReviewerAgent.llm := llm;
     ReviewerAgent.parser := parser;
     ReviewerAgent.prompt := prompt;
     ReviewerAgent.chain :=
       {| chain_prompt := prompt; chain_llm := llm; chain_parser := parser |} |}.

Definition the_pipeline : AgentPipeline.t :=
  {| AgentPipeline.generator := the_generator;
     AgentPipeline.reviewer := the_reviewer |}.

(** A runtime whose chains answer from a script: the n-th request sent
    gets the n-th answer. *)
Definition scripted (env : string -> option string)
    (answers : list (Outcome pyval)) : Runtime :=
  {| getenv := env;
     py_repr := fun _ => "<repr>";
     json_dumps := fun _ => "<json>";
     get_format_instructions := fun _ => "<format instructions>";
     chain_invoke := fun tr _ _ =>
       nth (length (requests tr)) answers
         (Raised (Exc "APIConnectionError" ["Connection error."] None)) |}.

Definition env_with_key (name : string) : option string :=
  if name =? "GROQ_API_KEY" then Some "gsk_sample" else None.

Definition env_without_key (name : string) : option string := None.

Definition mcq (q : string) (os : list string) (a : string) : pyval :=
  PDict [("question", PStr q); ("options", PList (map PStr os));
         ("answer", PStr a)].

(** A well-formed bundle on the types of angles. *)
Definition angles_bundle : pyval :=
  PDict
    [("explanation", PStr "An angle is made where two lines meet.");
     ("mcqs",
      PList
        [mcq "Which angle is exactly 90 degrees?"
           ["Acute"; "Right"; "Obtuse"; "Straight"] "Right";
         mcq "Which angle is smaller than a right angle?"
           ["Acute"; "Right"; "Obtuse"; "Straight"] "Acute";
         mcq "Which angle is bigger than a right angle?"
           ["Acute"; "Right"; "Obtuse"; "Reflex"] "Obtuse";
         mcq "Which angle is a straight line?"
           ["Acute"; "Right"; "Obtuse"; "Straight"] "Straight"])].

Definition review_pass : pyval :=
  PDict [("status", PStr "pass"); ("feedback", PList [])].

Definition review_fail : pyval :=
  PDict [("status", PStr "fail");
         ("feedback", PList [PStr "Explanation too advanced for grade 4"])].

(** Scenario A: the reviewer passes the first bundle. *)
Definition rt_pass : Runtime :=
  scripted env_with_key [Returned angles_bundle; Returned review_pass].

(** Scenario B: the reviewer fails the first bundle. *)
Definition rt_fail : Runtime :=
  scripted env_with_key
    [Returned angles_bundle; Returned review_fail; Returned angles_bundle].

(** A scan of a trace: once [generate] has been entered a second time,
    no [review] follows.  [seen] counts the entries into [generate] so
    far. *)
Fixpoint review_only_before_refinement (seen : nat) (evs : Trace) : bool :=
  match evs with
  | [] => true
  | e :: evs' =>
      if is_Generate e
      then (if (seen =? 1)%nat then (review_calls evs' =? 0)%nat else true)
           && review_only_before_refinement (S seen) evs'
      else review_only_before_refinement seen evs'
  end.

(** What C3 asks of the events of one run. *)
Definition bounded_calls (evs : Trace) : Prop :=
  (generate_calls evs <= 2)%nat
  /\ (review_calls evs <= 1)%nat
  /\ forall pre e post,
      evs = (pre ++ e :: post)%list ->
      is_Generate e = true ->
      generate_calls pre = 1%nat ->
      review_calls post = 0%nat.

(** A role raises [e] during [run], leaving the trace [tr']: the first
    generation, the review, or the refinement. *)
Inductive role_raises (self : AgentPipeline.t) (grade : Z) (topic : string)
    (rt : Runtime) (tr : Trace) : PyExc -> Trace -> Prop :=
| generation_raises e tr1 :
    GeneratorAgent.generate (AgentPipeline.generator self) grade topic PNone
      rt (tr ++ [Print (line_creating grade topic)])%list = (Raised e, tr1) ->
    role_raises self grade topic rt tr e tr1
| review_raises c tr1 e tr2 :
    GeneratorAgent.generate (AgentPipeline.generator self) grade topic PNone
      rt (tr ++ [Print (line_creating grade topic)])%list = (Returned c, tr1) ->
    ReviewerAgent.review (AgentPipeline.reviewer self) grade topic c rt
      (tr1 ++ [Print line_evaluating])%list = (Raised e, tr2) ->
    role_raises self grade topic rt tr e tr2
| refinement_raises c tr1 rv tr2 st fb e tr3 :
    GeneratorAgent.generate (AgentPipeline.generator self) grade topic PNone
      rt (tr ++ [Print (line_creating grade topic)])%list = (Returned c, tr1) ->
    ReviewerAgent.review (AgentPipeline.reviewer self) grade topic c rt
      (tr1 ++ [Print line_evaluating])%list = (Returned rv, tr2) ->
    getitem rv "status" = Returned st ->
    eq_str st "fail" = true ->
    getitem rv "feedback" = Returned fb ->
    GeneratorAgent.generate (AgentPipeline.generator self) grade topic fb rt
      (tr2 ++ [Print line_refining])%list = (Raised e, tr3) ->
    role_raises self grade topic rt tr e tr3.

(** The chain of the generator cannot parse what the model wrote. *)
Definition parse_failure : PyExc :=
  Exc "OutputParserException" ["Invalid json output"] None.

Definition rt_unparsable : Runtime :=
  scripted env_with_key [Raised parse_failure].

Definition missing_key : PyExc :=
  ValueError "GROQ_API_KEY environment variable is not set".

(** Lines, each ended by a newline. *)
Fixpoint terminated (ls : list string) : string :=
  match ls with
  | [] => ""
  | l :: ls' => l ++ newline ++ terminated ls'
  end.

(** Cutting a string at its newlines, as [s.split(chr(10))] does. *)
Fixpoint split_aux (s : string) : string * list string :=
  match s with
  | "" => ("", [])
  | String c rest =>
      let '(cur, more) := split_aux rest in
      if Ascii.eqb c (ascii_of_nat 10) then ("", cur :: more)
      else (String c cur, more)
  end.

Definition split_lines (s : string) : list string :=
  let '(cur, more) := split_aux s in cur :: more.

Fixpoint has_newline (s : string) : bool :=
  match s with
  | "" => false
  | String c rest => Ascii.eqb c (ascii_of_nat 10) || has_newline rest
  end.

Definition review_fail_silent : pyval :=
  PDict [("status", PStr "fail"); ("feedback", PList [])].

Definition rt_fail_silent : Runtime :=
  scripted env_with_key
    [Returned angles_bundle; Returned review_fail_silent;
     Returned angles_bundle].

Definition review_shouting : pyval :=
  PDict [("status", PStr "FAIL"); ("feedback", PList [PStr "Too hard"])].

Definition rt_shouting : Runtime :=
  scripted env_with_key [Returned angles_bundle; Returned review_shouting].



(** A review with every declared field of the declared type. *)
Definition typed_review (v : pyval) : Prop :=
  exists d st fb,
    v = PDict d
    /\ dict_get d "status" = Some (PStr st)
    /\ (st = "pass" \/ st = "fail")
    /\ dict_get d "feedback" = Some (PList (map PStr fb)).

(** ** The script at the end of [agent_system.py] *)



(** ** Parts of [app.py] *)

(** [os.environ[name] = value]: the environment of the runtime, updated. *)
Definition setenv (rt : Runtime) (name value : string) : Runtime :=
  {| getenv := fun n => if n =? name then Some value else getenv rt n;
     py_repr := py_repr rt;
     json_dumps := json_dumps rt;
     get_format_instructions := get_format_instructions rt;
     chain_invoke := chain_invoke rt |}.

(** [s.replace(' ', '_')]. *)
Fixpoint replace_spaces (s : string) : string :=
  match s with
  | "" => ""
  | String c rest =>
      String (if Ascii.eqb c " " then "_"%char else c) (replace_spaces rest)
  end.

(** The file names of the two download buttons. *)
Definition content_file_name (grade : Z) (topic : string) : string :=
  "content_grade" ++ str_of_int grade ++ "_" ++ replace_spaces topic
  ++ ".json".

Definition results_file_name (grade : Z) (topic : string) : string :=
  "pipeline_results_grade" ++ str_of_int grade ++ "_" ++ replace_spaces topic
  ++ ".json".

(** A call that writes to the page. *)
Inductive StCall : Type :=
| st_markdown (body : string)
| st_success (body : string)
| st_warning (body : string)
| st_info (body : string).

(** Page code: the calls made so far are threaded through, an exception
    ends the code and leaves them standing. *)
Definition UI (A : Type) : Type := list StCall -> Outcome A * list StCall.

Definition ui_ret {A} (a : A) : UI A := fun page => (Returned a, page).

Definition ui_bind {A B} (m : UI A) (k : A -> UI B) : UI B :=
  fun page =>
    match m page with
    | (Returned a, page') => k a page'
    | (Raised e, page') => (Raised e, page')
    end.

Definition ui_lift {A} (o : Outcome A) : UI A := fun page => (o, page).

Definition st (call : StCall) : UI unit :=
  fun page => (Returned tt, (page ++ [call])%list).

Declare Scope ui_scope.
Delimit Scope ui_scope with ui.
Notation "x <- m ;; k" := (ui_bind m (fun x => k))
  (at level 61, m at next level, right associativity) : ui_scope.
Notation "m ;; k" := (ui_bind m (fun _ => k))
  (at level 61, right associativity) : ui_scope.

(** [for item in items: st.markdown(f"- {item}")]. *)
Fixpoint markdown_items (repr : pyval -> string) (items : list pyval)
  : UI unit :=
  match items with
  | [] => ui_ret tt
  | item :: items' =>
      (st (st_markdown ("- " ++ format_item repr item)) ;;
       markdown_items repr items')%ui
  end.

(** The section on the review, from its heading to the rule below it
    (lines 148 to 163 of [app.py]). *)
Definition review_section (repr : pyval -> string) (results : pyval)
  : UI unit :=
  (st (st_markdown "### 2️⃣ Reviewer Agent Evaluation") ;;
   initial_review <- ui_lift (getitem results "initial_review") ;;
   review_status <- ui_lift (getitem initial_review "status") ;;
   (if eq_str review_status "pass"
    then st (st_success "✅ **Status: PASS** - Content meets quality standards!")
    else st (st_warning "⚠️ **Status: FAIL** - Content needs improvement")) ;;
   initial_review <- ui_lift (getitem results "initial_review") ;;
   feedback <- ui_lift (getitem initial_review "feedback") ;;
   (if truthy feedback
    then
      st (st_markdown "#### 💬 Reviewer Feedback") ;;
      initial_review <- ui_lift (getitem results "initial_review") ;;
      feedback <- ui_lift (getitem initial_review "feedback") ;;
      items <- ui_lift (iterate feedback) ;;
      markdown_items repr items
    else st (st_info "No feedback - content is excellent!")) ;;
   st (st_markdown "---"))%ui.

(** The test of line 165, [if results["refinement"]:], which shows the
    refinement section. *)
Definition refinement_shown (results : pyval) : Outcome bool :=
  match getitem results "refinement" with
  | Returned refinement => Returned (truthy refinement)
  | Raised e => Raised e
  end.

(** ** More definitions for the properties *)

(** A number or boolean that [if v:] takes as true. *)
Definition is_truthy_scalar (v : pyval) : bool :=
  match v with
  | PBool b => b
  | PInt z => negb (z =? 0)%Z
  | PFloat f => negb (f =? 0)%float
  | _ => false
  end.

(** Every byte is below 128: the string is plain ASCII. *)
Fixpoint is_ascii (s : string) : bool :=
  match s with
  | "" => true
  | String c rest => (nat_of_ascii c <? 128)%nat && is_ascii rest
  end.

Definition review_fail_number : pyval :=
  PDict [("status", PStr "fail"); ("feedback", PInt 3)].

Definition rt_fail_number : Runtime :=
  scripted env_with_key
    [Returned angles_bundle; Returned review_fail_number;
     Returned angles_bundle].

Definition review_without_status : pyval :=
  PDict [("feedback", PList [PStr "Too hard"])].

Definition rt_without_status : Runtime :=
  scripted env_with_key
    [Returned angles_bundle; Returned review_without_status].

Definition review_without_feedback : pyval :=
  PDict [("status", PStr "fail")].

Definition rt_without_feedback : Runtime :=
  scripted env_with_key
    [Returned angles_bundle; Returned review_without_feedback;
     Returned angles_bundle].

(** The fixed texts of the review section. *)
Definition heading_review : string := "### 2️⃣ Reviewer Agent Evaluation".
Definition banner_pass : string := "✅ **Status: PASS** - Content meets quality standards!".
Definition banner_fail : string := "⚠️ **Status: FAIL** - Content needs improvement".
Definition heading_feedback : string := "#### 💬 Reviewer Feedback".
Definition note_no_feedback : string := "No feedback - content is excellent!".

(** A string holds a space. *)
Fixpoint has_space (s : string) : bool :=
  match s with
  | "" => false
  | String c rest => Ascii.eqb c " " || has_space rest
  end.


(** The banner for a status. *)
Definition banner (status : pyval) : StCall :=
  if eq_str status "pass" then st_success banner_pass
  else st_warning banner_fail.

(** The newlines a string holds. *)
Fixpoint count_newlines (s : string) : nat :=
  match s with
  | "" => O
  | String c rest =>
      ((if Ascii.eqb c (ascii_of_nat 10) then 1 else 0)
       + count_newlines rest)%nat
  end.

(** A chain of the runtime answered [out] to some request. *)
Definition answered_by (rt : Runtime) (chain : Chain) (out : pyval) : Prop :=
  exists tr0 input, chain_invoke rt tr0 chain input = Returned out.

(** ** The requests of a run and their answers *)











(** ** A standard output that may refuse a line *)

(** What [sys.stdout] does with a line, given what happened before: it
    takes the line ([None]) or raises, as it raises [UnicodeEncodeError]
    for a line that its encoding cannot write. *)
Definition Stdout : Type := Trace -> string -> option PyExc.

(** [print(line)] on the output [stdout]. *)
Definition print_on (stdout : Stdout) (line : string) : M unit :=
  fun _ tr =>
    match stdout tr line with
    | None => (Returned tt, (tr ++ [Print line])%list)
    | Some e => (Raised e, tr)
    end.

(** [self.run(grade, topic)] of [AgentPipeline] once more, its four
    [print] written to [stdout]. *)
Definition run_on (stdout : Stdout) (self : AgentPipeline.t) (grade : Z)
    (topic : string) : M pyval :=
  let results :=
    [("input", PDict [("grade", PInt grade); ("topic", PStr topic)]);
     ("initial_generation", PNone);
     ("initial_review", PNone);
     ("refinement", PNone);
     ("final_output", PNone)] in
  print_on stdout
    ("🤖 Generator Agent: Creating content for Grade "
     ++ str_of_int grade ++ " - " ++ topic) ;;
  initial_content <-
    GeneratorAgent.generate (AgentPipeline.generator self) grade topic
      PNone ;;
  let results :=
    AgentPipeline.setitem results "initial_generation" initial_content in
  print_on stdout "🔍 Reviewer Agent: Evaluating content..." ;;
  review <-
    ReviewerAgent.review (AgentPipeline.reviewer self) grade topic
      initial_content ;;
  let results := AgentPipeline.setitem results "initial_review" review in
  status <- lift (getitem review "status") ;;
  if eq_str status "fail"
  then
    print_on stdout "⚠️  Review failed. Refining content..." ;;
    feedback <- lift (getitem review "feedback") ;;
    refined_content <-
      GeneratorAgent.generate (AgentPipeline.generator self) grade topic
        feedback ;;
    feedback_addressed <- lift (getitem review "feedback") ;;
    let results :=
      AgentPipeline.setitem results "refinement"
        (PDict [("content", refined_content);
                ("feedback_addressed", feedback_addressed)]) in
    let results :=
      AgentPipeline.setitem results "final_output" refined_content in
    ret (PDict results)
  else
    print_on stdout "✅ Review passed!" ;;
    let results :=
      AgentPipeline.setitem results "final_output" initial_content in
    ret (PDict results).

(** The output that takes every line. *)
Definition takes_every_line : Stdout := fun _ _ => None.

(** An output in ASCII: it refuses every line that is not plain ASCII. *)
Definition ascii_stdout : Stdout :=
  fun _ line =>
    if is_ascii line then None
    else Some (Exc "UnicodeEncodeError"
                 ["'ascii' codec can't encode character"] None).

(** ** Storing the key of the sidebar *)

(** A string holds the byte zero. *)
Fixpoint has_nul (s : string) : bool :=
  match s with
  | "" => false
  | String c rest => Ascii.eqb c Ascii.zero || has_nul rest
  end.

(** [os.environ[name] = value] for a plain name: the value is encoded for
    the system, which raises what [encode_error] gives, and handed to
    [putenv], which refuses a value holding the byte zero; only then is
    the environment updated. *)
Definition environ_setitem (encode_error : string -> option PyExc)
    (rt : Runtime) (name value : string) : Outcome Runtime :=
  match encode_error value with
  | Some e => Raised e
  | None =>
      if has_nul value then Raised (ValueError "embedded null byte")
      else Returned (setenv rt name value)
  end.

(** [if api_key: os.environ['GROQ_API_KEY'] = api_key], for the text
    [api_key] of the sidebar. *)
Definition store_api_key (encode_error : string -> option PyExc)
    (api_key : string) (rt : Runtime) : Outcome Runtime :=
  if negb (api_key =? "")
  then environ_setitem encode_error rt "GROQ_API_KEY" api_key
  else Returned rt.

(** * Properties *)

(** ** The methods, step by step *)

Lemma generate_unfold (self : GeneratorAgent.t) grade topic feedback rt tr :
  GeneratorAgent.generate self grade topic feedback rt tr =
  let tr0 := (tr ++ [Generate grade topic feedback])%list in
  match feedback_section_of rt feedback with
  | Returned fs =>
      let input := generator_input rt self grade topic fs in
      (chain_invoke rt tr0 (GeneratorAgent.chain self) input,
       (tr0 ++ [Invoke (GeneratorAgent.chain self) input])%list)
  | Raised e => (Raised e, tr0)
  end.
Proof.
  unfold GeneratorAgent.generate, feedback_section_of, generator_input,
    bind, emit, runtime, invoke, lift, ret.
  destruct (truthy feedback); [destruct (iterate feedback)|]; cbn;
    try reflexivity;
    match goal with |- context [chain_invoke ?a ?b ?c ?d] =>
      destruct (chain_invoke a b c d) end; reflexivity.
Qed.

Lemma review_unfold (self : ReviewerAgent.t) grade topic content rt tr :
  ReviewerAgent.review self grade topic content rt tr =
  let tr0 := (tr ++ [Review grade topic content])%list in
  let input :=
    PDict [("grade", PInt grade); ("topic", PStr topic);
           ("content", PStr (json_dumps rt content));
           ("format_instructions",
            PStr (get_format_instructions rt (ReviewerAgent.parser self)))] in
  (chain_invoke rt tr0 (ReviewerAgent.chain self) input,
   (tr0 ++ [Invoke (ReviewerAgent.chain self) input])%list).
Proof.
  unfold ReviewerAgent.review, bind, emit, runtime, invoke, ret. cbn.
  match goal with |- context [chain_invoke ?a ?b ?c ?d] =>
    destruct (chain_invoke a b c d) end; reflexivity.
Qed.

Lemma run_unfold (self : AgentPipeline.t) grade topic rt tr :
  AgentPipeline.run self grade topic rt tr =
  match GeneratorAgent.generate (AgentPipeline.generator self) grade topic
          PNone rt (tr ++ [Print (line_creating grade topic)])%list with
  | (Raised e, tr1) => (Raised e, tr1)
  | (Returned c, tr1) =>
      match ReviewerAgent.review (AgentPipeline.reviewer self) grade topic c
              rt (tr1 ++ [Print line_evaluating])%list with
      | (Raised e, tr2) => (Raised e, tr2)
      | (Returned rv, tr2) =>
          match getitem rv "status" with
          | Raised e => (Raised e, tr2)
          | Returned st =>
              if eq_str st "fail"
              then
                match getitem rv "feedback" with
                | Raised e => (Raised e, (tr2 ++ [Print line_refining])%list)
                | Returned fb =>
                    match GeneratorAgent.generate
                            (AgentPipeline.generator self) grade topic fb rt
                            (tr2 ++ [Print line_refining])%list with
                    | (Raised e, tr3) => (Raised e, tr3)
                    | (Returned refined, tr3) =>
                        (Returned (refined_record grade topic c rv refined fb),
                         tr3)
                    end
                end
              else (Returned (accepted_record grade topic c rv),
                    (tr2 ++ [Print line_passed])%list)
          end
      end
  end.
Proof.
  unfold AgentPipeline.run, bind, print, emit, lift, ret.
  fold (line_creating grade topic). fold line_evaluating.
  fold line_refining. fold line_passed.
  destruct (GeneratorAgent.generate _ _ _ PNone _ _) as [[c|e] tr1];
    [|reflexivity].
  destruct (ReviewerAgent.review _ _ _ _ _ _) as [[rv|e] tr2];
    [|reflexivity].
  destruct (getitem rv "status") as [st|e]; [|reflexivity].
  destruct (eq_str st "fail"); [|reflexivity].
  destruct (getitem rv "feedback") as [fb|e]; [|reflexivity].
  destruct (GeneratorAgent.generate _ _ _ fb _ _) as [[refined|e] tr3];
    reflexivity.
Qed.

(** A run that returns went through both roles, and its record is the
    accepted or the refined one. *)
Lemma run_returned_inv (self : AgentPipeline.t) grade topic rt tr r tr' :
  AgentPipeline.run self grade topic rt tr = (Returned r, tr') ->
  exists c tr1 rv tr2 st,
    GeneratorAgent.generate (AgentPipeline.generator self) grade topic PNone
      rt (tr ++ [Print (line_creating grade topic)])%list = (Returned c, tr1)
    /\ ReviewerAgent.review (AgentPipeline.reviewer self) grade topic c rt
         (tr1 ++ [Print line_evaluating])%list = (Returned rv, tr2)
    /\ getitem rv "status" = Returned st
    /\ ((eq_str st "fail" = false
         /\ r = accepted_record grade topic c rv
         /\ tr' = (tr2 ++ [Print line_passed])%list)
        \/ (eq_str st "fail" = true
            /\ exists fb refined,
                getitem rv "feedback" = Returned fb
                /\ GeneratorAgent.generate (AgentPipeline.generator self)
                     grade topic fb rt (tr2 ++ [Print line_refining])%list
                   = (Returned refined, tr')
                /\ r = refined_record grade topic c rv refined fb)).
Proof.
  rewrite run_unfold.
  destruct (GeneratorAgent.generate _ _ _ PNone _ _) as [[c|e] tr1] eqn:Hg1;
    [|discriminate].
  destruct (ReviewerAgent.review _ _ _ _ _ _) as [[rv|e] tr2] eqn:Hr;
    [|discriminate].
  destruct (getitem rv "status") as [st|e] eqn:Hst; [|discriminate].
  destruct (eq_str st "fail") eqn:Hfail.
  - destruct (getitem rv "feedback") as [fb|e] eqn:Hfb; [|discriminate].
    destruct (GeneratorAgent.generate _ _ _ fb _ _) as [[refined|e] tr3] eqn:Hg2;
      [|discriminate].
    intros [= <- <-].
    exists c, tr1, rv, tr2, st.
    split; [reflexivity|]. split; [exact Hr|]. split; [exact Hst|].
    right. split; [exact Hfail|]. exists fb, refined.
    split; [first [reflexivity | exact Hfb]|]. split; [exact Hg2|reflexivity].
  - intros [= <- <-].
    exists c, tr1, rv, tr2, st.
    split; [reflexivity|]. split; [exact Hr|]. split; [exact Hst|].
    left. split; [exact Hfail|]. split; reflexivity.
Qed.

Lemma eq_str_true (v : pyval) (s : string) :
  eq_str v s = true <-> v = PStr s.
Proof.
  split.
  - destruct v; cbn; try discriminate. intros H.
    apply String.eqb_eq in H. now subst.
  - intros ->. cbn. apply String.eqb_refl.
Qed.

(** ** Two scenarios *)

Example scenario_A :
  fst (AgentPipeline.run the_pipeline 4 "Types of angles" rt_pass [])
  = Returned (accepted_record 4 "Types of angles" angles_bundle review_pass).
Proof. reflexivity. Qed.

Example scenario_B :
  fst (AgentPipeline.run the_pipeline 4 "Types of angles" rt_fail [])
  = Returned
      (refined_record 4 "Types of angles" angles_bundle review_fail
         angles_bundle (PList [PStr "Explanation too advanced for grade 4"])).
Proof. reflexivity. Qed.

(** ** C1: the record follows the review branch *)

(** C1.  A run that returns gives a record [r] whose review has a status;
    if the status is ["pass"], [r["refinement"]] is [None] and
    [r["final_output"]] is [r["initial_generation"]]; if it is ["fail"],
    [r["refinement"]] is a dictionary whose ["feedback_addressed"] is the
    review's ["feedback"] and whose ["content"] is [r["final_output"]]. *)
Theorem run_branch_correct (self : AgentPipeline.t) grade topic rt tr r tr' :
  AgentPipeline.run self grade topic rt tr = (Returned r, tr') ->
  exists gen rev st,
    getitem r "initial_generation" = Returned gen
    /\ getitem r "initial_review" = Returned rev
    /\ getitem rev "status" = Returned st
    /\ (st = PStr "pass" ->
        getitem r "refinement" = Returned PNone
        /\ getitem r "final_output" = Returned gen)
    /\ (st = PStr "fail" ->
        exists refinement content fb,
          getitem r "refinement" = Returned refinement
          /\ refinement <> PNone
          /\ getitem refinement "feedback_addressed" = Returned fb
          /\ getitem rev "feedback" = Returned fb
          /\ getitem refinement "content" = Returned content
          /\ getitem r "final_output" = Returned content).
Proof.
  intros H.
  destruct (run_returned_inv _ _ _ _ _ _ _ H)
    as (c & tr1 & rv & tr2 & st & _ & _ & Hst & Hbr).
  destruct Hbr as [(Hnf & -> & _) | (Hf & fb & refined & Hfb & _ & ->)];
    exists c, rv, st;
    (split; [reflexivity|]); (split; [reflexivity|]); (split; [exact Hst|]).
  - split.
    + intros _. split; reflexivity.
    + intros ->. discriminate Hnf.
  - split.
    + intros ->. discriminate Hf.
    + intros _.
      exists (PDict [("content", refined); ("feedback_addressed", fb)]),
        refined, fb.
      repeat (split; [first [reflexivity | exact Hfb | discriminate]|]).
      reflexivity.
Qed.

Lemma run_branch_correct_witness :
  exists r,
    fst (AgentPipeline.run the_pipeline 4 "Types of angles" rt_fail [])
    = Returned r
    /\ exists gen rev st,
        getitem r "initial_generation" = Returned gen
        /\ getitem r "initial_review" = Returned rev
        /\ getitem rev "status" = Returned st
        /\ (st = PStr "pass" ->
            getitem r "refinement" = Returned PNone
            /\ getitem r "final_output" = Returned gen)
        /\ (st = PStr "fail" ->
            exists refinement content fb,
              getitem r "refinement" = Returned refinement
              /\ refinement <> PNone
              /\ getitem refinement "feedback_addressed" = Returned fb
              /\ getitem rev "feedback" = Returned fb
              /\ getitem refinement "content" = Returned content
              /\ getitem r "final_output" = Returned content).
Proof.
  eexists. split.
  - reflexivity.
  - apply (run_branch_correct the_pipeline 4 "Types of angles" rt_fail [] _
             (snd (AgentPipeline.run the_pipeline 4 "Types of angles"
                     rt_fail []))).
    reflexivity.
Defined.

(** ** C3: how often the roles are called *)

Lemma review_only_before_refinement_sound (evs : Trace) :
  forall seen,
    review_only_before_refinement seen evs = true ->
    forall pre e post,
      evs = (pre ++ e :: post)%list ->
      is_Generate e = true ->
      (seen + generate_calls pre = 1)%nat ->
      review_calls post = 0%nat.
Proof.
  induction evs as [|x evs IH]; intros seen Hc pre e post Heq He Hn.
  - destruct pre; discriminate.
  - destruct pre as [|p pre]; cbn in Heq; injection Heq as -> ->.
    + cbn in Hc. rewrite He in Hc. cbn in Hn.
      replace seen with 1%nat in Hc by lia. cbn in Hc.
      apply andb_true_iff in Hc as [Hc _]. now apply Nat.eqb_eq in Hc.
    + cbn in Hc. unfold generate_calls in Hn. cbn in Hn.
      destruct (is_Generate p).
      * apply andb_true_iff in Hc as [_ Hc]. cbn in Hn.
        apply (IH (S seen) Hc pre e post eq_refl He).
        unfold generate_calls. lia.
      * apply (IH seen Hc pre e post eq_refl He). exact Hn.
Qed.

Lemma bounded_calls_by_scan (evs : Trace) :
  (generate_calls evs <=? 2)%nat = true ->
  (review_calls evs <=? 1)%nat = true ->
  review_only_before_refinement 0 evs = true ->
  bounded_calls evs.
Proof.
  intros Hg Hr Hs. split; [now apply Nat.leb_le|].
  split; [now apply Nat.leb_le|].
  intros pre e post Heq He Hn.
  now apply (review_only_before_refinement_sound evs 0%nat Hs pre e post).
Qed.

Ltac trace_done :=
  eexists; split;
  [ cbn [snd]; repeat rewrite <- app_assoc; cbn [app]; reflexivity
  | apply bounded_calls_by_scan; reflexivity ].

(** C3.  Whatever the chains answer, and whether the run returns or
    raises, the events one call of [run] adds to the trace hold at most
    two entries into [generate] and at most one into [review], and after
    the second entry into [generate] (the refinement) no [review]
    follows. *)
Theorem run_call_bounds (self : AgentPipeline.t) grade topic rt tr :
  exists evs,
    snd (AgentPipeline.run self grade topic rt tr) = (tr ++ evs)%list
    /\ bounded_calls evs.
Proof.
  rewrite run_unfold, generate_unfold.
  change (feedback_section_of rt PNone) with (@Returned string "").
  cbn zeta iota.
  match goal with |- context [chain_invoke ?a ?b ?c ?d] =>
    destruct (chain_invoke a b c d) as [c1|e1] end; [|trace_done].
  rewrite review_unfold. cbn zeta.
  match goal with |- context [chain_invoke ?a ?b ?c ?d] =>
    destruct (chain_invoke a b c d) as [rv|e2] end; [|trace_done].
  destruct (getitem rv "status") as [st|e3]; [|trace_done].
  destruct (eq_str st "fail"); [|trace_done].
  destruct (getitem rv "feedback") as [fb|e4]; [|trace_done].
  rewrite generate_unfold. cbn zeta.
  destruct (feedback_section_of rt fb) as [fs|e5]; [|trace_done].
  match goal with |- context [chain_invoke ?a ?b ?c ?d] =>
    destruct (chain_invoke a b c d) as [c2|e6] end; trace_done.
Qed.

(** ** C4: what the caller sees when a role raises *)

(** C4, as stated, fails: when the generator's chain raises an
    [OutputParserException], [generate] raises it and [run] ends with that
    very exception, which is no [PipelineError] wrapping it. *)
Lemma run_error_is_not_wrapped :
  fst (GeneratorAgent.generate the_generator 4 "Types of angles" PNone
         rt_unparsable [Print (line_creating 4 "Types of angles")])
  = Raised parse_failure
  /\ fst (AgentPipeline.run the_pipeline 4 "Types of angles" rt_unparsable [])
     = Raised parse_failure
  /\ ~ PipelineError_wrapping parse_failure parse_failure.
Proof.
  split; [reflexivity|]. split; [reflexivity|].
  intros [Hc _]. discriminate Hc.
Qed.

(** C4, amended.  When a role raises during [run], [run] ends with that
    same exception, unchanged and unwrapped, and with no record: the
    outcome is [Raised e], at the trace the role left. *)
Theorem run_propagates_role_error (self : AgentPipeline.t) grade topic rt tr
    e tr' :
  role_raises self grade topic rt tr e tr' ->
  AgentPipeline.run self grade topic rt tr = (Raised e, tr').
Proof.
  intros H. rewrite run_unfold.
  destruct H as [e tr1 Hg | c tr1 e tr2 Hg Hr
                | c tr1 rv tr2 st fb e tr3 Hg Hr Hst Hf Hfb Hg2].
  - now rewrite Hg.
  - now rewrite Hg, Hr.
  - now rewrite Hg, Hr, Hst, Hf, Hfb, Hg2.
Qed.

Lemma run_propagates_role_error_witness :
  role_raises the_pipeline 4 "Types of angles" rt_unparsable []
    parse_failure
    [Print (line_creating 4 "Types of angles");
     Generate 4 "Types of angles" PNone;
     Invoke (GeneratorAgent.chain the_generator)
       (generator_input rt_unparsable the_generator 4 "Types of angles" "")]
  /\ AgentPipeline.run the_pipeline 4 "Types of angles" rt_unparsable []
     = (Raised parse_failure,
        [Print (line_creating 4 "Types of angles");
         Generate 4 "Types of angles" PNone;
         Invoke (GeneratorAgent.chain the_generator)
           (generator_input rt_unparsable the_generator 4 "Types of angles"
              "")]).
Proof.
  assert (H : role_raises the_pipeline 4 "Types of angles" rt_unparsable []
                parse_failure
                [Print (line_creating 4 "Types of angles");
                 Generate 4 "Types of angles" PNone;
                 Invoke (GeneratorAgent.chain the_generator)
                   (generator_input rt_unparsable the_generator 4
                      "Types of angles" "")]).
  { apply generation_raises. reflexivity. }
  split; [exact H|].
  exact (run_propagates_role_error the_pipeline 4 "Types of angles"
           rt_unparsable [] _ _ H).
Defined.

(** A run that returns, returns a complete record: all or nothing. *)
Lemma run_returns_complete_record (self : AgentPipeline.t) grade topic rt tr
    r tr' :
  AgentPipeline.run self grade topic rt tr = (Returned r, tr') ->
  exists c rv,
    r = accepted_record grade topic c rv
    \/ exists refined fb, r = refined_record grade topic c rv refined fb.
Proof.
  intros H.
  destruct (run_returned_inv _ _ _ _ _ _ _ H)
    as (c & tr1 & rv & tr2 & st & _ & _ & _ & Hbr).
  exists c, rv.
  destruct Hbr as [(_ & -> & _) | (_ & fb & refined & _ & _ & ->)].
  - now left.
  - right. now exists refined, fb.
Qed.

(** ** C5: construction without the credential *)

(** C5.  With [GROQ_API_KEY] absent from the environment, constructing
    the generator, the reviewer or the pipeline raises the [ValueError]
    that names the variable, and the trace is left as it was: no client
    was built and no request was sent. *)
Theorem construction_fails_fast (rt : Runtime) (tr : Trace) :
  getenv rt "GROQ_API_KEY" = None ->
  GeneratorAgent.__init__ rt tr = (Raised missing_key, tr)
  /\ ReviewerAgent.__init__ rt tr = (Raised missing_key, tr)
  /\ AgentPipeline.__init__ rt tr = (Raised missing_key, tr).
Proof.
  intros H.
  unfold AgentPipeline.__init__, GeneratorAgent.__init__,
    ReviewerAgent.__init__, bind, os_getenv, raise.
  rewrite H. cbn. repeat split; reflexivity.
Qed.

Lemma construction_fails_fast_witness :
  GeneratorAgent.__init__ (scripted env_without_key []) []
  = (Raised missing_key, [])
  /\ ReviewerAgent.__init__ (scripted env_without_key []) []
     = (Raised missing_key, [])
  /\ AgentPipeline.__init__ (scripted env_without_key []) []
     = (Raised missing_key, []).
Proof.
  apply (construction_fails_fast (scripted env_without_key []) []).
  reflexivity.
Defined.

(** An empty credential counts as absent, too. *)
Lemma construction_needs_credential (rt : Runtime) (tr : Trace) :
  not_set (getenv rt "GROQ_API_KEY") = true ->
  GeneratorAgent.__init__ rt tr = (Raised missing_key, tr)
  /\ ReviewerAgent.__init__ rt tr = (Raised missing_key, tr).
Proof.
  intros H.
  unfold GeneratorAgent.__init__, ReviewerAgent.__init__, bind, os_getenv,
    raise.
  rewrite H. split; reflexivity.
Qed.

(** With the credential, construction returns the agents, each after
    building its client. *)
Lemma construction_succeeds (rt : Runtime) (tr : Trace) :
  not_set (getenv rt "GROQ_API_KEY") = false ->
  GeneratorAgent.__init__ rt tr
  = (Returned the_generator,
     (tr ++ [NewChatGroq (GeneratorAgent.llm the_generator)])%list)
  /\ ReviewerAgent.__init__ rt tr
     = (Returned the_reviewer,
        (tr ++ [NewChatGroq (ReviewerAgent.llm the_reviewer)])%list).
Proof.
  intros H.
  unfold GeneratorAgent.__init__, ReviewerAgent.__init__, bind, os_getenv,
    raise, emit, ret.
  rewrite H. split; reflexivity.
Qed.

(** ** C8: the temperatures *)

(** C8.  Whenever both agents are constructed, the reviewer's client has
    a strictly lower temperature than the generator's, and the agents are
    the fixed records [the_generator] and [the_reviewer]: model, parser,
    prompt and chain do not depend on the runtime or on what happened
    before. *)
Theorem reviewer_temperature_lower (rt1 rt2 : Runtime) (tr1 tr2 : Trace)
    g r tr1' tr2' :
  GeneratorAgent.__init__ rt1 tr1 = (Returned g, tr1') ->
  ReviewerAgent.__init__ rt2 tr2 = (Returned r, tr2') ->
  (temperature (ReviewerAgent.llm r) <? temperature (GeneratorAgent.llm g))%float
  = true
  /\ g = the_generator
  /\ r = the_reviewer.
Proof.
  intros Hg Hr.
  destruct (not_set (getenv rt1 "GROQ_API_KEY")) eqn:K1.
  - destruct (construction_needs_credential rt1 tr1 K1) as [E _].
    rewrite E in Hg. discriminate.
  - destruct (not_set (getenv rt2 "GROQ_API_KEY")) eqn:K2.
    + destruct (construction_needs_credential rt2 tr2 K2) as [_ E].
      rewrite E in Hr. discriminate.
    + destruct (construction_succeeds rt1 tr1 K1) as [E1 _].
      destruct (construction_succeeds rt2 tr2 K2) as [_ E2].
      rewrite E1 in Hg. rewrite E2 in Hr.
      injection Hg as <- _. injection Hr as <- _.
      repeat split; reflexivity.
Qed.

Lemma reviewer_temperature_lower_witness :
  (temperature (ReviewerAgent.llm the_reviewer)
   <? temperature (GeneratorAgent.llm the_generator))%float = true
  /\ the_generator = the_generator
  /\ the_reviewer = the_reviewer.
Proof.
  apply (reviewer_temperature_lower rt_pass rt_pass [] []
           the_generator the_reviewer
           [NewChatGroq (GeneratorAgent.llm the_generator)]
           [NewChatGroq (ReviewerAgent.llm the_reviewer)]);
    reflexivity.
Defined.

(** ** C7: the feedback section of a generation request *)

Lemma append_assoc (a b c : string) : (a ++ b) ++ c = a ++ (b ++ c).
Proof. induction a as [|x a IH]; cbn; [reflexivity | now rewrite IH]. Qed.

(** Joining with newlines and closing with one more is ending every line
    with a newline, as soon as there is a line. *)
Lemma join_newline_terminated (ls : list string) :
  ls <> [] -> join newline ls ++ newline = terminated ls.
Proof.
  induction ls as [|l ls IH]; [congruence|]. intros _.
  destruct ls as [|l' ls].
  - reflexivity.
  - change (join newline (l :: l' :: ls))
      with (l ++ newline ++ join newline (l' :: ls)).
    rewrite !append_assoc, IH by discriminate. reflexivity.
Qed.

Lemma feedback_section_of_list (rt : Runtime) (items : list pyval) :
  items <> [] ->
  feedback_section_of rt (PList items)
  = Returned
      (GeneratorAgent.feedback_header
       ++ terminated
            (map (fun item => "- " ++ format_item (py_repr rt) item) items)).
Proof.
  intros Hne. unfold feedback_section_of.
  destruct items as [|x items]; [congruence|]. cbn [truthy iterate].
  unfold GeneratorAgent.feedback_text. f_equal. f_equal.
  apply join_newline_terminated. discriminate.
Qed.

Lemma map_format_str (repr : pyval -> string) (items : list string) :
  map (fun item => "- " ++ format_item repr item) (map PStr items)
  = map (fun item => "- " ++ item) items.
Proof.
  induction items as [|s items IH]; cbn [map]; [reflexivity|].
  now rewrite IH.
Qed.

Lemma feedback_section_of_strings (rt : Runtime) (items : list string) :
  items <> [] ->
  feedback_section_of rt (PList (map PStr items))
  = Returned (GeneratorAgent.feedback_header
              ++ terminated (map (fun item => "- " ++ item) items)).
Proof.
  intros Hne. rewrite feedback_section_of_list.
  - now rewrite map_format_str.
  - destruct items; [congruence | discriminate].
Qed.

(** C7.  Called with a non-empty list as feedback, [generate] sends one
    request through its chain; the request carries the grade, the topic,
    and a feedback section made of the heading "FEEDBACK FROM REVIEWER
    (Address these issues):" on a line of its own followed by every item,
    in order, each on its own line as "- item" (an item that is a string
    stands as it is).  Called without feedback, it sends a request whose
    feedback section is the empty string. *)
Theorem generate_embeds_feedback (self : GeneratorAgent.t) grade topic
    (items : list pyval) rt tr :
  items <> [] ->
  (exists input,
     snd (GeneratorAgent.generate self grade topic (PList items) rt tr)
     = (tr ++ [Generate grade topic (PList items);
               Invoke (GeneratorAgent.chain self) input])%list
     /\ getitem input "grade" = Returned (PInt grade)
     /\ getitem input "topic" = Returned (PStr topic)
     /\ getitem input "feedback_section"
        = Returned
            (PStr (newline
                   ++ "FEEDBACK FROM REVIEWER (Address these issues):"
                   ++ newline
                   ++ terminated
                        (map (fun item =>
                                "- " ++ format_item (py_repr rt) item)
                           items))))
  /\ (exists input,
        snd (GeneratorAgent.generate self grade topic PNone rt tr)
        = (tr ++ [Generate grade topic PNone;
                  Invoke (GeneratorAgent.chain self) input])%list
        /\ getitem input "grade" = Returned (PInt grade)
        /\ getitem input "topic" = Returned (PStr topic)
        /\ getitem input "feedback_section" = Returned (PStr "")).
Proof.
  intros Hne. split.
  - rewrite generate_unfold, (feedback_section_of_list rt items Hne).
    cbn zeta iota.
    eexists. split; [cbn [snd]; rewrite <- app_assoc; reflexivity|].
    repeat split.
  - rewrite generate_unfold.
    change (feedback_section_of rt PNone) with (@Returned string "").
    cbn zeta iota.
    eexists. split; [cbn [snd]; rewrite <- app_assoc; reflexivity|].
    repeat split.
Qed.

Lemma generate_embeds_feedback_witness :
  exists input,
    snd (GeneratorAgent.generate the_generator 4 "Types of angles"
           (PList [PStr "Explanation too advanced for grade 4";
                   PStr "Question 2 has two right answers"])
           rt_fail [])
    = [Generate 4 "Types of angles"
         (PList [PStr "Explanation too advanced for grade 4";
                 PStr "Question 2 has two right answers"]);
       Invoke (GeneratorAgent.chain the_generator) input]
    /\ getitem input "feedback_section"
       = Returned
           (PStr (newline
                  ++ "FEEDBACK FROM REVIEWER (Address these issues):"
                  ++ newline
                  ++ "- Explanation too advanced for grade 4"
                  ++ newline
                  ++ "- Question 2 has two right answers"
                  ++ newline)).
Proof.
  destruct (generate_embeds_feedback the_generator 4 "Types of angles"
              [PStr "Explanation too advanced for grade 4";
               PStr "Question 2 has two right answers"] rt_fail [])
    as [(input & Htr & _ & _ & Hfs) _].
  - discriminate.
  - exists input. split; [exact Htr | exact Hfs].
Defined.

(** On the refinement path [run] enters [generate] with the very
    [feedback] of the review. *)
Lemma run_refines_with_review_feedback (self : AgentPipeline.t) grade topic
    rt tr c tr1 rv tr2 st fb :
  GeneratorAgent.generate (AgentPipeline.generator self) grade topic PNone
    rt (tr ++ [Print (line_creating grade topic)])%list = (Returned c, tr1) ->
  ReviewerAgent.review (AgentPipeline.reviewer self) grade topic c rt
    (tr1 ++ [Print line_evaluating])%list = (Returned rv, tr2) ->
  getitem rv "status" = Returned st ->
  eq_str st "fail" = true ->
  getitem rv "feedback" = Returned fb ->
  exists rest,
    snd (AgentPipeline.run self grade topic rt tr)
    = (tr2 ++ Print line_refining :: Generate grade topic fb :: rest)%list.
Proof.
  intros Hg Hr Hst Hf Hfb.
  rewrite run_unfold, Hg, Hr, Hst, Hf, Hfb, generate_unfold. cbn zeta.
  destruct (feedback_section_of rt fb) as [fs|e].
  - match goal with |- context [chain_invoke ?a ?b ?c ?d] =>
      destruct (chain_invoke a b c d) end;
      eexists; cbn [snd]; repeat rewrite <- app_assoc; reflexivity.
  - eexists. cbn [snd]. repeat rewrite <- app_assoc. reflexivity.
Qed.

Lemma split_aux_line (l s : string) :
  has_newline l = false ->
  split_aux (l ++ newline ++ s)
  = (l, fst (split_aux s) :: snd (split_aux s)).
Proof.
  induction l as [|c l IH]; intros H.
  - cbn. now destruct (split_aux s).
  - cbn [has_newline] in H. apply orb_false_iff in H as [Hc Hl].
    cbn [append split_aux]. rewrite (IH Hl), Hc. reflexivity.
Qed.

Lemma split_lines_terminated (ls : list string) :
  forallb (fun l => negb (has_newline l)) ls = true ->
  split_lines (terminated ls) = (ls ++ [""])%list.
Proof.
  unfold split_lines. induction ls as [|l ls IH]; intros H.
  - reflexivity.
  - cbn in H. apply andb_true_iff in H as [Hl Hls].
    apply negb_true_iff in Hl.
    cbn [terminated]. rewrite (split_aux_line _ _ Hl).
    specialize (IH Hls). destruct (split_aux (terminated ls)) as [cur more].
    cbn [fst snd]. cbn [app]. now rewrite <- IH.
Qed.

Lemma dashed_without_newline (items : list string) :
  forallb (fun l => negb (has_newline l))
    (map (fun item => "- " ++ item) items)
  = forallb (fun item => negb (has_newline item)) items.
Proof.
  induction items as [|s items IH]; [reflexivity|].
  cbn [map forallb]. rewrite IH. reflexivity.
Qed.

(** One item per line: when no item holds a newline, the lines of the
    feedback section are an empty line, the heading, and one line per
    item. *)
Lemma feedback_section_lines (rt : Runtime) (items : list string) :
  items <> [] ->
  forallb (fun item => negb (has_newline item)) items = true ->
  exists fs,
    feedback_section_of rt (PList (map PStr items)) = Returned fs
    /\ split_lines fs
       = "" :: "FEEDBACK FROM REVIEWER (Address these issues):"
         :: (map (fun item => ("- " ++ item)%string) items ++ [""])%list.
Proof.
  intros Hne Hnl. eexists. split.
  - apply (feedback_section_of_strings rt items Hne).
  - unfold GeneratorAgent.feedback_header. rewrite !append_assoc.
    change (newline ++ "FEEDBACK FROM REVIEWER (Address these issues):"
            ++ newline ++ terminated (map (fun item => "- " ++ item) items))
      with (terminated ("" :: "FEEDBACK FROM REVIEWER (Address these issues):"
                        :: map (fun item => "- " ++ item) items)).
    rewrite split_lines_terminated; [reflexivity|].
    cbn [forallb]. rewrite dashed_without_newline, Hnl. reflexivity.
Qed.

(** The first pass always sends the request without a feedback section. *)
Lemma first_pass_trace (self : GeneratorAgent.t) grade topic rt tr c tr1 :
  GeneratorAgent.generate self grade topic PNone rt tr = (Returned c, tr1) ->
  tr1 = (tr ++ [Generate grade topic PNone;
                Invoke (GeneratorAgent.chain self)
                  (generator_input rt self grade topic "")])%list.
Proof.
  rewrite generate_unfold.
  change (feedback_section_of rt PNone) with (@Returned string "").
  cbn zeta iota. intros [= _ <-]. now rewrite <- app_assoc.
Qed.

(** ** C9: a failed review without feedback *)

(** C9.  When the first bundle [c] was generated and its review [rv] has
    status ["fail"] and the empty list as feedback, [run] enters
    [generate] again, with [[]] as feedback, and sends through the same
    chain the very request of the first pass, whose feedback section is
    empty; what that request is answered decides the run: an exception
    ends it, a bundle becomes [final_output], with a refinement whose
    [feedback_addressed] is [[]]. *)
Theorem empty_feedback_repeats_first_request (self : AgentPipeline.t)
    grade topic rt tr c tr1 rv tr2 :
  GeneratorAgent.generate (AgentPipeline.generator self) grade topic PNone
    rt (tr ++ [Print (line_creating grade topic)])%list = (Returned c, tr1) ->
  ReviewerAgent.review (AgentPipeline.reviewer self) grade topic c rt
    (tr1 ++ [Print line_evaluating])%list = (Returned rv, tr2) ->
  getitem rv "status" = Returned (PStr "fail") ->
  getitem rv "feedback" = Returned (PList []) ->
  let chain := GeneratorAgent.chain (AgentPipeline.generator self) in
  let request :=
    generator_input rt (AgentPipeline.generator self) grade topic "" in
  tr1 = (tr ++ [Print (line_creating grade topic);
                Generate grade topic PNone;
                Invoke chain request])%list
  /\ getitem request "feedback_section" = Returned (PStr "")
  /\ AgentPipeline.run self grade topic rt tr
     = (match chain_invoke rt
                (tr2 ++ [Print line_refining;
                         Generate grade topic (PList [])])%list
                chain request with
        | Returned refined =>
            Returned (refined_record grade topic c rv refined (PList []))
        | Raised e => Raised e
        end,
        (tr2 ++ [Print line_refining;
                 Generate grade topic (PList []);
                 Invoke chain request])%list)
  /\ forall refined,
      getitem (refined_record grade topic c rv refined (PList []))
        "refinement"
      = Returned (PDict [("content", refined);
                         ("feedback_addressed", PList [])]).
Proof.
  intros Hg Hr Hst Hfb chain request.
  split.
  { rewrite (first_pass_trace _ _ _ _ _ _ _ Hg), <- app_assoc. reflexivity. }
  split; [reflexivity|]. split; [|reflexivity].
  rewrite run_unfold, Hg, Hr, Hst. cbn [eq_str]. cbn [String.eqb Ascii.eqb Bool.eqb].
  rewrite Hfb, generate_unfold.
  change (feedback_section_of rt (PList [])) with (@Returned string "").
  cbn zeta iota. fold chain. fold request.
  repeat rewrite <- app_assoc. cbn [app].
  destruct (chain_invoke rt _ chain request); reflexivity.
Qed.

Lemma empty_feedback_repeats_first_request_witness :
  requests (snd (AgentPipeline.run the_pipeline 4 "Types of angles"
                   rt_fail_silent []))
  = [(GeneratorAgent.chain the_generator,
      generator_input rt_fail_silent the_generator 4 "Types of angles" "");
     (ReviewerAgent.chain the_reviewer,
      PDict [("grade", PInt 4); ("topic", PStr "Types of angles");
             ("content", PStr "<json>");
             ("format_instructions", PStr "<format instructions>")]);
     (GeneratorAgent.chain the_generator,
      generator_input rt_fail_silent the_generator 4 "Types of angles" "")]
  /\ fst (AgentPipeline.run the_pipeline 4 "Types of angles"
            rt_fail_silent [])
     = Returned (refined_record 4 "Types of angles" angles_bundle
                   review_fail_silent angles_bundle (PList [])).
Proof.
  destruct (empty_feedback_repeats_first_request the_pipeline 4
              "Types of angles" rt_fail_silent []
              angles_bundle
              (snd (GeneratorAgent.generate the_generator 4 "Types of angles"
                      PNone rt_fail_silent
                      [Print (line_creating 4 "Types of angles")]))
              review_fail_silent
              (snd (ReviewerAgent.review the_reviewer 4 "Types of angles"
                      angles_bundle rt_fail_silent
                      (snd (GeneratorAgent.generate the_generator 4
                              "Types of angles" PNone rt_fail_silent
                              [Print (line_creating 4 "Types of angles")])
                       ++ [Print line_evaluating])%list)))
    as (_ & _ & Hrun & _); try reflexivity.
  rewrite Hrun. split; reflexivity.
Defined.

(** ** C10: any status but ["fail"] is accepted *)

(** C10.  When the first bundle [c] was generated and its review [rv] has
    a status that is not the string ["fail"], whatever else it is, [run]
    returns the accepted record: [refinement] is [None], [final_output]
    is [initial_generation], that is [c], and [generate] is not entered
    again. *)
Theorem other_status_is_accepted (self : AgentPipeline.t) grade topic rt tr
    c tr1 rv tr2 st :
  GeneratorAgent.generate (AgentPipeline.generator self) grade topic PNone
    rt (tr ++ [Print (line_creating grade topic)])%list = (Returned c, tr1) ->
  ReviewerAgent.review (AgentPipeline.reviewer self) grade topic c rt
    (tr1 ++ [Print line_evaluating])%list = (Returned rv, tr2) ->
  getitem rv "status" = Returned st ->
  st <> PStr "fail" ->
  exists r,
    AgentPipeline.run self grade topic rt tr
    = (Returned r, (tr2 ++ [Print line_passed])%list)
    /\ getitem r "refinement" = Returned PNone
    /\ getitem r "initial_generation" = Returned c
    /\ getitem r "final_output" = Returned c.
Proof.
  intros Hg Hr Hst Hne.
  exists (accepted_record grade topic c rv).
  rewrite run_unfold, Hg, Hr, Hst.
  destruct (eq_str st "fail") eqn:E.
  - apply eq_str_true in E. contradiction.
  - repeat split.
Qed.

Lemma other_status_is_accepted_witness :
  exists r,
    fst (AgentPipeline.run the_pipeline 4 "Types of angles" rt_shouting [])
    = Returned r
    /\ getitem r "refinement" = Returned PNone
    /\ getitem r "initial_generation" = Returned angles_bundle
    /\ getitem r "final_output" = Returned angles_bundle.
Proof.
  destruct (other_status_is_accepted the_pipeline 4 "Types of angles"
              rt_shouting [] angles_bundle
              (snd (GeneratorAgent.generate the_generator 4 "Types of angles"
                      PNone rt_shouting
                      [Print (line_creating 4 "Types of angles")]))
              review_shouting
              (snd (ReviewerAgent.review the_reviewer 4 "Types of angles"
                      angles_bundle rt_shouting
                      (snd (GeneratorAgent.generate the_generator 4
                              "Types of angles" PNone rt_shouting
                              [Print (line_creating 4 "Types of angles")])
                       ++ [Print line_evaluating])%list))
              (PStr "FAIL"))
    as (r & Hrun & H1 & H2 & H3); try reflexivity.
  - discriminate.
  - exists r. rewrite Hrun. repeat split; assumption.
Defined.

(** ** C2: the bundle a run returns *)

(** What [generate] returns is what its chain answered, as it is. *)
Lemma generate_returns_chain_answer (self : GeneratorAgent.t) grade topic
    feedback rt tr out tr' :
  GeneratorAgent.generate self grade topic feedback rt tr
  = (Returned out, tr') ->
  exists tr0 input,
    chain_invoke rt tr0 (GeneratorAgent.chain self) input = Returned out.
Proof.
  rewrite generate_unfold. cbn zeta.
  destruct (feedback_section_of rt feedback) as [fs|e]; [|discriminate].
  intros [= H _]. eauto.
Qed.


(** ** Conformance to the declared models *)

Lemma validate_items_none (check : pyval -> option ValidationError) l :
  forall i,
    validate_items check i l = None <-> Forall (fun x => check x = None) l.
Proof.
  induction l as [|x l IH]; intros i; cbn [validate_items].
  - split; [constructor | reflexivity].
  - destruct (check x) as [e|] eqn:E.
    + split; [discriminate|]. intros H. inversion H; congruence.
    + rewrite IH. split.
      * intros H. now constructor.
      * intros H. now inversion H.
Qed.

Lemma validate_fields_none check d fs :
  validate_fields check d fs = None
  <-> Forall (fun f => exists x, dict_get d (fst (fst f)) = Some x
                                 /\ check (snd (fst f)) x = None) fs.
Proof.
  induction fs as [|[[name ft] desc] fs IH]; cbn [validate_fields].
  - split; [constructor | reflexivity].
  - destruct (dict_get d name) as [x|] eqn:Hx.
    + destruct (check ft x) as [e|] eqn:E.
      * split; [discriminate|]. intros H. inversion H as [|? ? (y & Hy & Hc) _].
        cbn in Hy, Hc. congruence.
      * rewrite IH. split.
        -- intros H. constructor; [|exact H]. exists x. now split.
        -- intros H. now inversion H.
    + split; [discriminate|]. intros H. inversion H as [|? ? (y & Hy & _) _].
      cbn in Hy. congruence.
Qed.

Lemma existsb_eqb_In (n : string) names :
  existsb (String.eqb n) names = true <-> In n names.
Proof.
  rewrite existsb_exists. split.
  - intros (m & Hin & E). apply String.eqb_eq in E. now subst.
  - intros H. exists n. split; [exact H | apply String.eqb_refl].
Qed.

Lemma validate_str_none (x : pyval) :
  validate TStr x = None <-> exists s, x = PStr s.
Proof.
  split.
  - destruct x; cbn; try discriminate. eauto.
  - intros [s ->]. reflexivity.
Qed.

Lemma all_strings (l : list pyval) :
  Forall (fun x => validate TStr x = None) l
  <-> exists strs, l = map PStr strs.
Proof.
  split.
  - induction 1 as [|x l Hx _ (strs & ->)].
    + now exists [].
    + apply validate_str_none in Hx as [s ->]. now exists (s :: strs).
  - intros [strs ->]. induction strs as [|s strs IH]; constructor.
    + reflexivity.
    + exact IH.
Qed.

Lemma validate_list_none (t : FieldType) (v : pyval) :
  validate (TList t) v = None
  <-> exists l, v = PList l /\ Forall (fun x => validate t x = None) l.
Proof.
  split.
  - destruct v; cbn [validate]; try discriminate.
    intros H. apply validate_items_none in H. eauto.
  - intros (l & -> & H). cbn [validate]. now apply validate_items_none.
Qed.

Lemma validate_strings_none (v : pyval) :
  validate (TList TStr) v = None <-> exists strs, v = PList (map PStr strs).
Proof.
  rewrite validate_list_none. split.
  - intros (l & -> & H). apply all_strings in H as [strs ->]. eauto.
  - intros [strs ->]. eexists. split; [reflexivity|].
    apply all_strings. eauto.
Qed.

Lemma validate_model_none name fields (v : pyval) :
  validate (TModel name fields) v = None
  <-> exists d,
      v = PDict d
      /\ Forall (fun f => exists x, dict_get d (fst (fst f)) = Some x
                                    /\ validate (snd (fst f)) x = None)
           fields.
Proof.
  split.
  - destruct v; cbn [validate]; try discriminate.
    intros H. apply validate_fields_none in H. eauto.
  - intros (d & -> & H). cbn [validate]. now apply validate_fields_none.
Qed.

Lemma validate_status_none (x : pyval) :
  validate (TLiteral ["pass"; "fail"]) x = None
  <-> exists st, x = PStr st /\ (st = "pass" \/ st = "fail").
Proof.
  split.
  - destruct x; cbn [validate]; try discriminate.
    destruct (existsb (String.eqb s) ["pass"; "fail"]) eqn:E; [|discriminate].
    intros _. apply existsb_eqb_In in E. exists s. split; [reflexivity|].
    destruct E as [<- | [<- | []]]; auto.
  - intros (st & -> & [-> | ->]); reflexivity.
Qed.

Lemma validate_ReviewerOutput_none (v : pyval) :
  validate ReviewerOutput v = None <-> typed_review v.
Proof.
  unfold ReviewerOutput, typed_review. rewrite validate_model_none. split.
  - intros (d & -> & H).
    inversion H as [|? ? (x1 & G1 & V1) H1]; subst.
    inversion H1 as [|? ? (x2 & G2 & V2) _]; subst.
    cbn [fst snd] in *.
    apply validate_status_none in V1 as (st & -> & Hst).
    apply validate_strings_none in V2 as [fb ->].
    now exists d, st, fb.
  - intros (d & st & fb & -> & G1 & Hst & G2).
    exists d. split; [reflexivity|].
    repeat constructor; cbn [fst snd]; eexists; (split; [eassumption|]).
    + apply validate_status_none. eauto.
    + apply validate_strings_none. eauto.
Qed.

(** * Further properties of the code *)

(** ** Construction of the pipeline *)

(** X1.  [AgentPipeline()] raises the [ValueError] on the missing key
    exactly when [GROQ_API_KEY] is unset or set to the empty string, and
    then builds nothing; otherwise it returns the pipeline of the two fixed
    agents after building two clients of the same model, the generator's
    at temperature 0.7 first, the reviewer's at 0.3 second. *)
Theorem pipeline_construction (rt : Runtime) (tr : Trace) :
  AgentPipeline.__init__ rt tr
  = if not_set (getenv rt "GROQ_API_KEY")
    then (Raised (ValueError "GROQ_API_KEY environment variable is not set"),
          tr)
    else (Returned {| AgentPipeline.generator := the_generator;
                      AgentPipeline.reviewer := the_reviewer |},
          (tr ++ [NewChatGroq {| model := "llama-3.3-70b-versatile";
                                 temperature := 0.7%float |};
                  NewChatGroq {| model := "llama-3.3-70b-versatile";
                                 temperature := 0.3%float |}])%list).
Proof.
  unfold AgentPipeline.__init__, GeneratorAgent.__init__,
    ReviewerAgent.__init__, bind, os_getenv, raise, emit, ret.
  destruct (not_set (getenv rt "GROQ_API_KEY")); cbn.
  - reflexivity.
  - now rewrite <- app_assoc.
Qed.

(** ** Feedback that is no list of strings *)

Lemma generate_with_section (self : GeneratorAgent.t) grade topic feedback
    rt tr fs :
  feedback_section_of rt feedback = Returned fs ->
  GeneratorAgent.generate self grade topic feedback rt tr
  = (chain_invoke rt (tr ++ [Generate grade topic feedback])%list
       (GeneratorAgent.chain self)
       (generator_input rt self grade topic fs),
     (tr ++ [Generate grade topic feedback;
             Invoke (GeneratorAgent.chain self)
               (generator_input rt self grade topic fs)])%list).
Proof.
  intros H. rewrite generate_unfold, H. cbn zeta iota.
  now rewrite <- app_assoc.
Qed.

(** X2.  Any feedback that [if feedback:] takes as false ([None], [[]],
    the empty string, [0], [{}], [False]) is no feedback: [generate] sends
    the request of a first pass, with the empty feedback section, and its
    outcome is the chain's answer to it. *)
Theorem falsy_feedback_is_no_feedback (self : GeneratorAgent.t) grade topic
    feedback rt tr :
  truthy feedback = false ->
  GeneratorAgent.generate self grade topic feedback rt tr
  = (chain_invoke rt (tr ++ [Generate grade topic feedback])%list
       (GeneratorAgent.chain self)
       (generator_input rt self grade topic ""),
     (tr ++ [Generate grade topic feedback;
             Invoke (GeneratorAgent.chain self)
               (generator_input rt self grade topic "")])%list)
  /\ requests (snd (GeneratorAgent.generate self grade topic feedback rt []))
     = requests (snd (GeneratorAgent.generate self grade topic PNone rt [])).
Proof.
  intros H.
  assert (E : feedback_section_of rt feedback = Returned "").
  { unfold feedback_section_of. now rewrite H. }
  split.
  - now apply generate_with_section.
  - rewrite (generate_with_section _ _ _ _ _ _ _ E).
    rewrite (generate_with_section self grade topic PNone rt [] "");
      reflexivity.
Qed.

Lemma falsy_feedback_is_no_feedback_witness :
  requests (snd (GeneratorAgent.generate the_generator 4 "Types of angles"
                   (PDict []) rt_pass []))
  = requests (snd (GeneratorAgent.generate the_generator 4 "Types of angles"
                     PNone rt_pass [])).
Proof.
  apply (falsy_feedback_is_no_feedback the_generator 4 "Types of angles"
           (PDict []) rt_pass []).
  reflexivity.
Defined.

Lemma truthy_scalar_not_iterable (rt : Runtime) (feedback : pyval) :
  is_truthy_scalar feedback = true ->
  feedback_section_of rt feedback
  = Raised (TypeError ("'" ++ type_name feedback
                       ++ "' object is not iterable")).
Proof.
  unfold feedback_section_of.
  destruct feedback; cbn [is_truthy_scalar truthy]; try discriminate;
    intros ->; reflexivity.
Qed.

(** X3.  Feedback that is a number other than zero or [True] passes the
    test [if feedback:] and cannot be iterated: [generate] raises the
    [TypeError] of the loop and sends no request. *)
Theorem number_feedback_raises (self : GeneratorAgent.t) grade topic
    feedback rt tr :
  is_truthy_scalar feedback = true ->
  GeneratorAgent.generate self grade topic feedback rt tr
  = (Raised (TypeError ("'" ++ type_name feedback
                        ++ "' object is not iterable")),
     (tr ++ [Generate grade topic feedback])%list).
Proof.
  intros H.
  rewrite generate_unfold, (truthy_scalar_not_iterable rt feedback H).
  reflexivity.
Qed.

Lemma number_feedback_raises_witness :
  GeneratorAgent.generate the_generator 4 "Types of angles" (PInt 3)
    rt_pass []
  = (Raised (TypeError "'int' object is not iterable"),
     [Generate 4 "Types of angles" (PInt 3)]).
Proof.
  apply (number_feedback_raises the_generator 4 "Types of angles" (PInt 3)
           rt_pass []).
  reflexivity.
Defined.

(** X4.  When the review has status ["fail"] and a number other than zero
    (or [True]) as feedback, [run] raises the [TypeError] of the refinement
    instead of refining: the refining line is printed, [generate] is
    entered, and no third request is sent. *)
Theorem run_fails_on_number_feedback (self : AgentPipeline.t) grade topic
    rt tr c tr1 rv tr2 feedback :
  GeneratorAgent.generate (AgentPipeline.generator self) grade topic PNone
    rt (tr ++ [Print (line_creating grade topic)])%list = (Returned c, tr1) ->
  ReviewerAgent.review (AgentPipeline.reviewer self) grade topic c rt
    (tr1 ++ [Print line_evaluating])%list = (Returned rv, tr2) ->
  getitem rv "status" = Returned (PStr "fail") ->
  getitem rv "feedback" = Returned feedback ->
  is_truthy_scalar feedback = true ->
  AgentPipeline.run self grade topic rt tr
  = (Raised (TypeError ("'" ++ type_name feedback
                        ++ "' object is not iterable")),
     (tr2 ++ [Print line_refining; Generate grade topic feedback])%list).
Proof.
  intros Hg Hr Hst Hfb Hs.
  rewrite run_unfold, Hg, Hr, Hst. cbn [eq_str].
  change ("fail" =? "fail") with true. cbn iota.
  rewrite Hfb, generate_unfold, (truthy_scalar_not_iterable rt feedback Hs).
  cbn zeta iota. now rewrite <- app_assoc.
Qed.

Lemma run_fails_on_number_feedback_witness :
  fst (AgentPipeline.run the_pipeline 4 "Types of angles" rt_fail_number [])
  = Raised (TypeError "'int' object is not iterable")
  /\ length (requests (snd (AgentPipeline.run the_pipeline 4
                              "Types of angles" rt_fail_number [])))
     = 2%nat.
Proof.
  rewrite (run_fails_on_number_feedback the_pipeline 4 "Types of angles"
             rt_fail_number [] angles_bundle
             (snd (GeneratorAgent.generate the_generator 4 "Types of angles"
                     PNone rt_fail_number
                     [Print (line_creating 4 "Types of angles")]))
             review_fail_number
             (snd (ReviewerAgent.review the_reviewer 4 "Types of angles"
                     angles_bundle rt_fail_number
                     (snd (GeneratorAgent.generate the_generator 4
                             "Types of angles" PNone rt_fail_number
                             [Print (line_creating 4 "Types of angles")])
                      ++ [Print line_evaluating])%list))
             (PInt 3)); try reflexivity.
  split; reflexivity.
Defined.

Lemma chars_aux_ascii (s : string) :
  is_ascii s = true ->
  chars_aux s = ("", map (fun c => String c "") (list_ascii_of_string s)).
Proof.
  induction s as [|c s IH]; intros H; [reflexivity|].
  cbn [is_ascii] in H. apply andb_true_iff in H as [Hc Hs].
  cbn [chars_aux list_ascii_of_string map]. rewrite (IH Hs).
  unfold is_continuation. apply Nat.ltb_lt in Hc.
  replace (128 <=? nat_of_ascii c)%nat with false
    by (symmetry; apply Nat.leb_gt; exact Hc).
  reflexivity.
Qed.

Lemma feedback_section_of_items (rt : Runtime) (feedback : pyval) items :
  truthy feedback = true ->
  iterate feedback = Returned items ->
  items <> [] ->
  feedback_section_of rt feedback
  = Returned
      (GeneratorAgent.feedback_header
       ++ terminated
            (map (fun item => "- " ++ format_item (py_repr rt) item) items)).
Proof.
  intros Ht Hi Hne. unfold feedback_section_of. rewrite Ht, Hi.
  unfold GeneratorAgent.feedback_text. f_equal. f_equal.
  apply join_newline_terminated.
  destruct items; [congruence | discriminate].
Qed.

(** X5.  Feedback that is one non-empty ASCII string, not a list, is
    taken character by character: the feedback section of the request has
    the heading and then one line "- c" for every character [c] of the
    string. *)
Theorem text_feedback_is_split_into_characters (self : GeneratorAgent.t)
    grade topic (s : string) rt tr :
  s <> "" ->
  is_ascii s = true ->
  exists input,
    snd (GeneratorAgent.generate self grade topic (PStr s) rt tr)
    = (tr ++ [Generate grade topic (PStr s);
              Invoke (GeneratorAgent.chain self) input])%list
    /\ getitem input "feedback_section"
       = Returned
           (PStr (newline
                  ++ "FEEDBACK FROM REVIEWER (Address these issues):"
                  ++ newline
                  ++ terminated
                       (map (fun c => "- " ++ String c "")
                          (list_ascii_of_string s)))).
Proof.
  intros Hne Ha.
  assert (Hitems : iterate (PStr s)
                   = Returned (map PStr (map (fun c => String c "")
                                           (list_ascii_of_string s)))).
  { cbn [iterate]. unfold chars. now rewrite (chars_aux_ascii s Ha). }
  assert (Ht : truthy (PStr s) = true).
  { cbn [truthy]. destruct (s =? "") eqn:E; [|reflexivity].
    apply String.eqb_eq in E. contradiction. }
  assert (Hl : map PStr (map (fun c => String c "") (list_ascii_of_string s))
               <> []).
  { destruct s; [congruence | discriminate]. }
  eexists. rewrite (generate_with_section _ _ _ _ _ _ _
                      (feedback_section_of_items rt _ _ Ht Hitems Hl)).
  split; [reflexivity|]. cbn [getitem generator_input dict_get].
  cbn [String.eqb Ascii.eqb Bool.eqb]. cbn iota.
  rewrite map_format_str, map_map. reflexivity.
Qed.

Lemma text_feedback_is_split_into_characters_witness :
  exists input,
    snd (GeneratorAgent.generate the_generator 4 "Types of angles"
           (PStr "Hard") rt_fail [])
    = [Generate 4 "Types of angles" (PStr "Hard");
       Invoke (GeneratorAgent.chain the_generator) input]
    /\ getitem input "feedback_section"
       = Returned
           (PStr (newline
                  ++ "FEEDBACK FROM REVIEWER (Address these issues):"
                  ++ newline
                  ++ "- H" ++ newline ++ "- a" ++ newline
                  ++ "- r" ++ newline ++ "- d" ++ newline)).
Proof.
  destruct (text_feedback_is_split_into_characters the_generator 4
              "Types of angles" "Hard" rt_fail [])
    as (input & Htr & Hfs).
  - discriminate.
  - reflexivity.
  - exists input. split; [exact Htr | exact Hfs].
Defined.

(** X6.  Feedback that is a non-empty dictionary, not a list, is taken
    by its keys: the feedback section has one line "- key" for every key,
    in order, and the values do not appear. *)
Theorem dict_feedback_lists_its_keys (self : GeneratorAgent.t) grade topic
    (d : list (string * pyval)) rt tr :
  d <> [] ->
  exists input,
    snd (GeneratorAgent.generate self grade topic (PDict d) rt tr)
    = (tr ++ [Generate grade topic (PDict d);
              Invoke (GeneratorAgent.chain self) input])%list
    /\ getitem input "feedback_section"
       = Returned
           (PStr (newline
                  ++ "FEEDBACK FROM REVIEWER (Address these issues):"
                  ++ newline
                  ++ terminated (map (fun kv => "- " ++ fst kv) d))).
Proof.
  intros Hne.
  assert (Hitems : iterate (PDict d)
                   = Returned (map PStr (map fst d))).
  { cbn [iterate]. now rewrite map_map. }
  assert (Ht : truthy (PDict d) = true)
    by (destruct d; [congruence | reflexivity]).
  assert (Hl : map PStr (map fst d) <> [])
    by (destruct d; [congruence | discriminate]).
  eexists. rewrite (generate_with_section _ _ _ _ _ _ _
                      (feedback_section_of_items rt _ _ Ht Hitems Hl)).
  split; [reflexivity|]. cbn [getitem generator_input dict_get].
  cbn [String.eqb Ascii.eqb Bool.eqb]. cbn iota.
  rewrite map_format_str, map_map. reflexivity.
Qed.

Lemma dict_feedback_lists_its_keys_witness :
  exists input,
    snd (GeneratorAgent.generate the_generator 4 "Types of angles"
           (PDict [("clarity", PStr "Too advanced"); ("mcqs", PInt 2)])
           rt_fail [])
    = [Generate 4 "Types of angles"
         (PDict [("clarity", PStr "Too advanced"); ("mcqs", PInt 2)]);
       Invoke (GeneratorAgent.chain the_generator) input]
    /\ getitem input "feedback_section"
       = Returned
           (PStr (newline
                  ++ "FEEDBACK FROM REVIEWER (Address these issues):"
                  ++ newline
                  ++ "- clarity" ++ newline ++ "- mcqs" ++ newline)).
Proof.
  destruct (dict_feedback_lists_its_keys the_generator 4 "Types of angles"
              [("clarity", PStr "Too advanced"); ("mcqs", PInt 2)]
              rt_fail [])
    as (input & Htr & Hfs).
  - discriminate.
  - exists input. split; [exact Htr | exact Hfs].
Defined.

(** ** Reviews that lack a key *)

(** X7.  When the review is a dictionary without the key ["status"],
    [run] raises [KeyError('status')] right after the review: nothing more
    is printed, [generate] is not entered again, and no record is
    returned. *)
Theorem run_needs_status (self : AgentPipeline.t) grade topic rt tr
    c tr1 d tr2 :
  GeneratorAgent.generate (AgentPipeline.generator self) grade topic PNone
    rt (tr ++ [Print (line_creating grade topic)])%list = (Returned c, tr1) ->
  ReviewerAgent.review (AgentPipeline.reviewer self) grade topic c rt
    (tr1 ++ [Print line_evaluating])%list = (Returned (PDict d), tr2) ->
  dict_get d "status" = None ->
  AgentPipeline.run self grade topic rt tr = (Raised (KeyError "status"), tr2).
Proof.
  intros Hg Hr Hd. rewrite run_unfold, Hg, Hr. cbn [getitem].
  now rewrite Hd.
Qed.

Lemma run_needs_status_witness :
  fst (AgentPipeline.run the_pipeline 4 "Types of angles"
         rt_without_status [])
  = Raised (KeyError "status")
  /\ generate_calls (snd (AgentPipeline.run the_pipeline 4 "Types of angles"
                            rt_without_status []))
     = 1%nat.
Proof.
  rewrite (run_needs_status the_pipeline 4 "Types of angles"
             rt_without_status [] angles_bundle
             (snd (GeneratorAgent.generate the_generator 4 "Types of angles"
                     PNone rt_without_status
                     [Print (line_creating 4 "Types of angles")]))
             [("feedback", PList [PStr "Too hard"])]
             (snd (ReviewerAgent.review the_reviewer 4 "Types of angles"
                     angles_bundle rt_without_status
                     (snd (GeneratorAgent.generate the_generator 4
                             "Types of angles" PNone rt_without_status
                             [Print (line_creating 4 "Types of angles")])
                      ++ [Print line_evaluating])%list)));
    try reflexivity.
  split; reflexivity.
Defined.

(** X8.  When the review has status ["fail"] but no key ["feedback"],
    [run] prints the refining line and raises [KeyError('feedback')]
    before entering [generate]: no third request is sent. *)
Theorem run_needs_feedback_to_refine (self : AgentPipeline.t) grade topic
    rt tr c tr1 d tr2 :
  GeneratorAgent.generate (AgentPipeline.generator self) grade topic PNone
    rt (tr ++ [Print (line_creating grade topic)])%list = (Returned c, tr1) ->
  ReviewerAgent.review (AgentPipeline.reviewer self) grade topic c rt
    (tr1 ++ [Print line_evaluating])%list = (Returned (PDict d), tr2) ->
  dict_get d "status" = Some (PStr "fail") ->
  dict_get d "feedback" = None ->
  AgentPipeline.run self grade topic rt tr
  = (Raised (KeyError "feedback"), (tr2 ++ [Print line_refining])%list).
Proof.
  intros Hg Hr Hs Hf. rewrite run_unfold, Hg, Hr. cbn [getitem].
  rewrite Hs. cbn [eq_str]. change ("fail" =? "fail") with true. cbn iota.
  now rewrite Hf.
Qed.

Lemma run_needs_feedback_to_refine_witness :
  fst (AgentPipeline.run the_pipeline 4 "Types of angles"
         rt_without_feedback [])
  = Raised (KeyError "feedback")
  /\ generate_calls (snd (AgentPipeline.run the_pipeline 4 "Types of angles"
                            rt_without_feedback []))
     = 1%nat.
Proof.
  rewrite (run_needs_feedback_to_refine the_pipeline 4 "Types of angles"
             rt_without_feedback [] angles_bundle
             (snd (GeneratorAgent.generate the_generator 4 "Types of angles"
                     PNone rt_without_feedback
                     [Print (line_creating 4 "Types of angles")]))
             [("status", PStr "fail")]
             (snd (ReviewerAgent.review the_reviewer 4 "Types of angles"
                     angles_bundle rt_without_feedback
                     (snd (GeneratorAgent.generate the_generator 4
                             "Types of angles" PNone rt_without_feedback
                             [Print (line_creating 4 "Types of angles")])
                      ++ [Print line_evaluating])%list)));
    try reflexivity.
  split; reflexivity.
Defined.

(** ** What a run sends and records *)

Lemma review_trace (self : ReviewerAgent.t) grade topic content rt tr o tr' :
  ReviewerAgent.review self grade topic content rt tr = (o, tr') ->
  tr' = (tr ++ [Review grade topic content;
                Invoke (ReviewerAgent.chain self)
                  (PDict [("grade", PInt grade); ("topic", PStr topic);
                          ("content", PStr (json_dumps rt content));
                          ("format_instructions",
                           PStr (get_format_instructions rt
                                   (ReviewerAgent.parser self)))])])%list.
Proof.
  rewrite review_unfold. cbn zeta. intros [= _ <-]. now rewrite <- app_assoc.
Qed.

Lemma generate_returned_trace (self : GeneratorAgent.t) grade topic feedback
    rt tr out tr' :
  GeneratorAgent.generate self grade topic feedback rt tr
  = (Returned out, tr') ->
  exists fs,
    tr' = (tr ++ [Generate grade topic feedback;
                  Invoke (GeneratorAgent.chain self)
                    (generator_input rt self grade topic fs)])%list.
Proof.
  rewrite generate_unfold. cbn zeta.
  destruct (feedback_section_of rt feedback) as [fs|e]; [|discriminate].
  intros [= _ <-]. exists fs. now rewrite <- app_assoc.
Qed.

(** The events of a run that returns: those of the accepted path, or
    those of the refined path. *)
Lemma returned_run_events (self : AgentPipeline.t) grade topic rt tr r tr' :
  AgentPipeline.run self grade topic rt tr = (Returned r, tr') ->
  exists c rv review_input,
    getitem review_input "content" = Returned (PStr (json_dumps rt c))
    /\ getitem review_input "grade" = Returned (PInt grade)
    /\ getitem review_input "topic" = Returned (PStr topic)
    /\ ((r = accepted_record grade topic c rv
         /\ tr' = (tr ++ [Print (line_creating grade topic);
                          Generate grade topic PNone;
                          Invoke (GeneratorAgent.chain
                                    (AgentPipeline.generator self))
                            (generator_input rt
                               (AgentPipeline.generator self) grade topic "");
                          Print line_evaluating;
                          Review grade topic c;
                          Invoke (ReviewerAgent.chain
                                    (AgentPipeline.reviewer self))
                            review_input;
                          Print line_passed])%list)
        \/ (exists refined fb fs,
              r = refined_record grade topic c rv refined fb
              /\ tr' = (tr ++ [Print (line_creating grade topic);
                               Generate grade topic PNone;
                               Invoke (GeneratorAgent.chain
                                         (AgentPipeline.generator self))
                                 (generator_input rt
                                    (AgentPipeline.generator self) grade
                                    topic "");
                               Print line_evaluating;
                               Review grade topic c;
                               Invoke (ReviewerAgent.chain
                                         (AgentPipeline.reviewer self))
                                 review_input;
                               Print line_refining;
                               Generate grade topic fb;
                               Invoke (GeneratorAgent.chain
                                         (AgentPipeline.generator self))
                                 (generator_input rt
                                    (AgentPipeline.generator self) grade
                                    topic fs)])%list)).
Proof.
  intros H.
  destruct (run_returned_inv _ _ _ _ _ _ _ H)
    as (c & tr1 & rv & tr2 & st & Hg & Hr & _ & Hbr).
  apply first_pass_trace in Hg. apply review_trace in Hr. subst tr1 tr2.
  exists c, rv,
    (PDict [("grade", PInt grade); ("topic", PStr topic);
            ("content", PStr (json_dumps rt c));
            ("format_instructions",
             PStr (get_format_instructions rt
                     (ReviewerAgent.parser (AgentPipeline.reviewer self))))]).
  split; [reflexivity|]. split; [reflexivity|]. split; [reflexivity|].
  destruct Hbr as [(_ & -> & ->) | (_ & fb & refined & _ & Hg2 & ->)].
  - left. split; [reflexivity|].
    repeat rewrite <- app_assoc. reflexivity.
  - right. apply generate_returned_trace in Hg2 as [fs ->].
    exists refined, fb, fs. split; [reflexivity|].
    repeat rewrite <- app_assoc. reflexivity.
Qed.

(** X9.  A run that returns has sent exactly two requests when it
    accepted the first bundle ([refinement] is [None]) and exactly three
    when it refined ([refinement] is a dictionary). *)
Theorem returned_run_requests (self : AgentPipeline.t) grade topic rt tr
    r tr' :
  AgentPipeline.run self grade topic rt tr = (Returned r, tr') ->
  exists evs,
    tr' = (tr ++ evs)%list
    /\ ((getitem r "refinement" = Returned PNone
         /\ length (requests evs) = 2%nat)
        \/ (exists content fb,
              getitem r "refinement"
              = Returned (PDict [("content", content);
                                 ("feedback_addressed", fb)])
              /\ length (requests evs) = 3%nat)).
Proof.
  intros H.
  destruct (returned_run_events _ _ _ _ _ _ _ H)
    as (c & rv & ri & _ & _ & _ & Hcase).
  destruct Hcase as [(-> & ->) | (refined & fb & fs & -> & ->)];
    eexists; (split; [reflexivity|]).
  - left. split; reflexivity.
  - right. exists refined, fb. split; reflexivity.
Qed.

Lemma returned_run_requests_witness :
  exists evs,
    snd (AgentPipeline.run the_pipeline 4 "Types of angles" rt_fail [])
    = evs
    /\ length (requests evs) = 3%nat.
Proof.
  destruct (returned_run_requests the_pipeline 4 "Types of angles" rt_fail []
              (refined_record 4 "Types of angles" angles_bundle review_fail
                 angles_bundle
                 (PList [PStr "Explanation too advanced for grade 4"]))
              (snd (AgentPipeline.run the_pipeline 4 "Types of angles"
                      rt_fail [])))
    as (evs & Htr & [(Hn & _) | (content & fb & _ & Hlen)]).
  - reflexivity.
  - discriminate Hn.
  - exists evs. split; [exact Htr | exact Hlen].
Defined.

(** X11.  The record of a run that returns is a dictionary with exactly
    the five keys [input], [initial_generation], [initial_review],
    [refinement] and [final_output], in this order, and its [input] gives
    back the grade and the topic of the call. *)
Theorem record_has_five_keys (self : AgentPipeline.t) grade topic rt tr
    r tr' :
  AgentPipeline.run self grade topic rt tr = (Returned r, tr') ->
  exists d,
    r = PDict d
    /\ map fst d = ["input"; "initial_generation"; "initial_review";
                    "refinement"; "final_output"]
    /\ dict_get d "input"
       = Some (PDict [("grade", PInt grade); ("topic", PStr topic)]).
Proof.
  intros H.
  destruct (run_returns_complete_record _ _ _ _ _ _ _ H)
    as (c & rv & [-> | (refined & fb & ->)]);
    eexists; (split; [reflexivity|]); split; reflexivity.
Qed.

Lemma record_has_five_keys_witness :
  exists d,
    accepted_record 4 "Types of angles" angles_bundle review_pass = PDict d
    /\ map fst d = ["input"; "initial_generation"; "initial_review";
                    "refinement"; "final_output"]
    /\ dict_get d "input"
       = Some (PDict [("grade", PInt 4); ("topic", PStr "Types of angles")]).
Proof.
  apply (record_has_five_keys the_pipeline 4 "Types of angles" rt_pass [] _
           (snd (AgentPipeline.run the_pipeline 4 "Types of angles"
                   rt_pass []))).
  reflexivity.
Defined.

(** X12.  In a run that returns, [review] is entered exactly once, with
    the grade and topic of the call and the first bundle, the one recorded
    as [initial_generation]; the request it sends carries that bundle as
    serialised by [json.dumps].  No other content is ever reviewed. *)
Theorem reviewer_sees_first_bundle (self : AgentPipeline.t) grade topic rt
    tr r tr' :
  AgentPipeline.run self grade topic rt tr = (Returned r, tr') ->
  exists gen evs input,
    tr' = (tr ++ evs)%list
    /\ getitem r "initial_generation" = Returned gen
    /\ filter is_Review evs = [Review grade topic gen]
    /\ In (Invoke (ReviewerAgent.chain (AgentPipeline.reviewer self)) input)
         evs
    /\ getitem input "content" = Returned (PStr (json_dumps rt gen))
    /\ getitem input "grade" = Returned (PInt grade)
    /\ getitem input "topic" = Returned (PStr topic).
Proof.
  intros H.
  destruct (returned_run_events _ _ _ _ _ _ _ H)
    as (c & rv & ri & Hc & Hgr & Htp & Hcase).
  destruct Hcase as [(-> & ->) | (refined & fb & fs & -> & ->)];
    exists c; eexists; exists ri;
    (split; [reflexivity|]); (split; [reflexivity|]);
    (split; [reflexivity|]);
    (split; [cbn [In]; tauto|]); auto.
Qed.

Lemma reviewer_sees_first_bundle_witness :
  exists gen evs input,
    snd (AgentPipeline.run the_pipeline 4 "Types of angles" rt_fail [])
    = evs
    /\ getitem (refined_record 4 "Types of angles" angles_bundle review_fail
                  angles_bundle
                  (PList [PStr "Explanation too advanced for grade 4"]))
         "initial_generation" = Returned gen
    /\ filter is_Review evs = [Review 4 "Types of angles" gen]
    /\ In (Invoke (ReviewerAgent.chain the_reviewer) input) evs
    /\ getitem input "content" = Returned (PStr "<json>")
    /\ getitem input "grade" = Returned (PInt 4)
    /\ getitem input "topic" = Returned (PStr "Types of angles").
Proof.
  apply (reviewer_sees_first_bundle the_pipeline 4 "Types of angles"
           rt_fail [] _
           (snd (AgentPipeline.run the_pipeline 4 "Types of angles"
                   rt_fail []))).
  reflexivity.
Defined.

(** ** Where the exceptions of a run come from *)

Lemma getitem_raised (v : pyval) (k : string) e :
  getitem v k = Raised e -> e = KeyError k \/ exc_class e = "TypeError".
Proof.
  destruct v; cbn [getitem]; try (intros [= <-]; now right).
  destruct (dict_get d k); [discriminate|]. intros [= <-]. now left.
Qed.

Lemma feedback_section_raised (rt : Runtime) (feedback : pyval) e :
  feedback_section_of rt feedback = Raised e -> exc_class e = "TypeError".
Proof.
  unfold feedback_section_of.
  destruct (truthy feedback); [|discriminate].
  destruct feedback; cbn [iterate]; try discriminate; now intros [= <-].
Qed.

Lemma generate_raised (self : GeneratorAgent.t) grade topic feedback rt tr
    e tr' :
  GeneratorAgent.generate self grade topic feedback rt tr = (Raised e, tr') ->
  (exists tr0 input,
      chain_invoke rt tr0 (GeneratorAgent.chain self) input = Raised e)
  \/ exc_class e = "TypeError".
Proof.
  rewrite generate_unfold. cbn zeta.
  destruct (feedback_section_of rt feedback) as [fs|e0] eqn:E.
  - intros [= H _]. left. eauto.
  - intros [= <- _]. right. exact (feedback_section_raised _ _ _ E).
Qed.




(** ** The script *)





(** ** The page of [app.py] *)

Lemma has_space_append (a b : string) :
  has_space (a ++ b) = has_space a || has_space b.
Proof.
  induction a as [|c a IH]; [reflexivity|].
  cbn [append has_space]. now rewrite IH, orb_assoc.
Qed.

Lemma replace_spaces_no_space (s : string) :
  has_space (replace_spaces s) = false.
Proof.
  induction s as [|c s IH]; [reflexivity|].
  cbn [replace_spaces has_space]. rewrite IH, orb_false_r.
  destruct (Ascii.eqb c " ") eqn:E; [reflexivity | exact E].
Qed.

Lemma string_of_uint_no_space (d : Decimal.uint) :
  has_space (NilEmpty.string_of_uint d) = false.
Proof. induction d; cbn [NilEmpty.string_of_uint has_space]; auto. Qed.

Lemma str_of_int_no_space (z : Z) : has_space (str_of_int z) = false.
Proof.
  unfold str_of_int, NilZero.string_of_int, NilZero.string_of_uint.
  destruct (Z.to_int z) as [d|d]; destruct d;
    try reflexivity;
    cbn [has_space]; rewrite ?string_of_uint_no_space;
    cbn [NilEmpty.string_of_uint has_space];
    rewrite ?string_of_uint_no_space; reflexivity.
Qed.

(** X17.  The names of the two files offered for download never hold a
    space, whatever the topic: every space of the topic has become an
    underscore, and the replacement keeps the length of the topic. *)
Theorem file_names_have_no_space (grade : Z) (topic : string) :
  has_space (content_file_name grade topic) = false
  /\ has_space (results_file_name grade topic) = false
  /\ String.length (replace_spaces topic) = String.length topic.
Proof.
  unfold content_file_name, results_file_name.
  rewrite !has_space_append, str_of_int_no_space, replace_spaces_no_space.
  repeat split.
  induction topic as [|c s IH]; [reflexivity|].
  cbn [replace_spaces String.length]. now rewrite IH.
Qed.

Lemma markdown_items_page (repr : pyval -> string) (items : list pyval) :
  forall page,
    markdown_items repr items page
    = (Returned tt,
       (page ++ map (fun item => st_markdown ("- " ++ format_item repr item))
                  items)%list).
Proof.
  induction items as [|item items IH]; intros page.
  - cbn. now rewrite app_nil_r.
  - cbn [markdown_items map]. unfold ui_bind, st. rewrite IH.
    now rewrite <- app_assoc.
Qed.

Lemma review_section_unfold (repr : pyval -> string) (results : pyval) page :
  review_section repr results page
  = match getitem results "initial_review" with
    | Raised e => (Raised e, (page ++ [st_markdown heading_review])%list)
    | Returned rv =>
        match getitem rv "status" with
        | Raised e => (Raised e, (page ++ [st_markdown heading_review])%list)
        | Returned status =>
            match getitem rv "feedback" with
            | Raised e =>
                (Raised e,
                 (page ++ [st_markdown heading_review; banner status])%list)
            | Returned feedback =>
                if truthy feedback
                then
                  match iterate feedback with
                  | Raised e =>
                      (Raised e,
                       (page ++ [st_markdown heading_review; banner status;
                                 st_markdown heading_feedback])%list)
                  | Returned items =>
                      (Returned tt,
                       (page
                        ++ [st_markdown heading_review; banner status;
                            st_markdown heading_feedback]
                        ++ map (fun item =>
                                  st_markdown
                                    ("- " ++ format_item repr item)%string)
                             items
                        ++ [st_markdown "---"])%list)
                  end
                else
                  (Returned tt,
                   (page ++ [st_markdown heading_review; banner status;
                             st_info note_no_feedback;
                             st_markdown "---"])%list)
            end
        end
    end.
Proof.
  unfold review_section, ui_bind, ui_lift, banner.
  fold heading_review. fold banner_pass. fold banner_fail.
  fold heading_feedback. fold note_no_feedback.
  destruct (getitem results "initial_review") as [rv|e];
    [|reflexivity].
  destruct (getitem rv "status") as [status|e]; [|reflexivity].
  destruct (eq_str status "pass");
    (destruct (getitem rv "feedback") as [feedback|e];
     [|unfold st; now rewrite <- app_assoc]);
    (destruct (truthy feedback);
     [destruct (iterate feedback) as [items|e]|]);
    unfold st; rewrite ?markdown_items_page;
    repeat rewrite <- app_assoc; reflexivity.
Qed.

(** X18.  For the record of a run that returns, the page shows the PASS
    banner exactly when the review's status is ["pass"], the FAIL banner
    otherwise, and the refinement section exactly when the status is
    ["fail"]: for a status that is neither, it shows the FAIL banner
    above content that was not refined. *)
Theorem page_follows_status (self : AgentPipeline.t) grade topic rt tr r tr'
    (repr : pyval -> string) (page : list StCall) :
  AgentPipeline.run self grade topic rt tr = (Returned r, tr') ->
  exists rv status o rest,
    getitem r "initial_review" = Returned rv
    /\ getitem rv "status" = Returned status
    /\ refinement_shown r = Returned (eq_str status "fail")
    /\ review_section repr r page
       = (o, (page ++ st_markdown heading_review
                   :: (if eq_str status "pass" then st_success banner_pass
                       else st_warning banner_fail)
                   :: rest)%list).
Proof.
  intros H.
  destruct (run_returned_inv _ _ _ _ _ _ _ H)
    as (c & tr1 & rv & tr2 & status & _ & _ & Hst & Hbr).
  assert (Hshown : refinement_shown r = Returned (eq_str status "fail")).
  { destruct Hbr as [(E & -> & _) | (E & fb & refined & _ & _ & ->)];
      rewrite E; reflexivity. }
  assert (Hrv : getitem r "initial_review" = Returned rv).
  { destruct Hbr as [(_ & -> & _) | (_ & fb & refined & _ & _ & ->)];
      reflexivity. }
  exists rv, status.
  rewrite review_section_unfold, Hrv, Hst. fold (banner status).
  destruct (getitem rv "feedback") as [feedback|e];
    [destruct (truthy feedback); [destruct (iterate feedback)|]|];
    eexists; eexists; (split; [reflexivity|]); (split; [reflexivity|]);
    (split; [exact Hshown|]); cbn [app]; reflexivity.
Qed.

Lemma page_follows_status_witness :
  exists rv status o rest,
    getitem (accepted_record 4 "Types of angles" angles_bundle
               review_shouting) "initial_review" = Returned rv
    /\ getitem rv "status" = Returned status
    /\ refinement_shown (accepted_record 4 "Types of angles" angles_bundle
                           review_shouting)
       = Returned (eq_str status "fail")
    /\ review_section (fun _ => "<repr>")
         (accepted_record 4 "Types of angles" angles_bundle review_shouting)
         []
       = (o, st_markdown heading_review
             :: (if eq_str status "pass" then st_success banner_pass
                 else st_warning banner_fail)
             :: rest).
Proof.
  apply (page_follows_status the_pipeline 4 "Types of angles" rt_shouting []
           _
           (snd (AgentPipeline.run the_pipeline 4 "Types of angles"
                   rt_shouting []))
           (fun _ => "<repr>") []).
  reflexivity.
Defined.

(** X19.  When the review in the record conforms to the declared model
    [ReviewerOutput], the review section is written without any
    exception: the heading, the banner for the status, then either the
    feedback heading and one line "- item" per feedback item, or, when the
    feedback is empty (also under the FAIL banner), the note that there is
    no feedback; then the rule. *)
Theorem page_of_conforming_review (repr : pyval -> string)
    (results rv : pyval) (page : list StCall) :
  getitem results "initial_review" = Returned rv ->
  validate ReviewerOutput rv = None ->
  exists status items,
    getitem rv "status" = Returned (PStr status)
    /\ getitem rv "feedback" = Returned (PList (map PStr items))
    /\ review_section repr results page
       = (Returned tt,
          (page
           ++ [st_markdown heading_review; banner (PStr status)]
           ++ match items with
              | [] => [st_info note_no_feedback]
              | _ :: _ =>
                  st_markdown heading_feedback
                  :: map (fun item => st_markdown ("- " ++ item)%string) items
              end
           ++ [st_markdown "---"])%list).
Proof.
  intros Hrv Hv.
  apply validate_ReviewerOutput_none in Hv
    as (d & status & items & -> & Hst & _ & Hfb).
  exists status, items.
  assert (Hs : getitem (PDict d) "status" = Returned (PStr status))
    by (cbn [getitem]; now rewrite Hst).
  assert (Hf : getitem (PDict d) "feedback" = Returned (PList (map PStr items)))
    by (cbn [getitem]; now rewrite Hfb).
  split; [exact Hs|]. split; [exact Hf|].
  rewrite review_section_unfold, Hrv, Hs, Hf.
  destruct items as [|item items]; [reflexivity|].
  cbn [truthy map iterate]. f_equal. f_equal. cbn [app]. f_equal. f_equal.
  f_equal. f_equal.
  change (PStr item :: map PStr items) with (map PStr (item :: items)).
  rewrite map_map. reflexivity.
Qed.

Lemma page_of_conforming_review_witness :
  exists status items,
    getitem review_fail_silent "status" = Returned (PStr status)
    /\ getitem review_fail_silent "feedback" = Returned (PList (map PStr items))
    /\ review_section (fun _ => "<repr>")
         (refined_record 4 "Types of angles" angles_bundle review_fail_silent
            angles_bundle (PList [])) []
       = (Returned tt,
          ([] ++ [st_markdown heading_review; banner (PStr status)]
           ++ match items with
              | [] => [st_info note_no_feedback]
              | _ :: _ =>
                  st_markdown heading_feedback
                  :: map (fun item => st_markdown ("- " ++ item)%string) items
              end
           ++ [st_markdown "---"])%list).
Proof.
  apply (page_of_conforming_review (fun _ => "<repr>")
           (refined_record 4 "Types of angles" angles_bundle review_fail_silent
              angles_bundle (PList []))
           review_fail_silent []);
    reflexivity.
Defined.

(** ** The lines of the feedback section *)

Lemma split_aux_count (s : string) :
  length (snd (split_aux s)) = count_newlines s.
Proof.
  induction s as [|c s IH]; [reflexivity|].
  cbn [split_aux count_newlines]. destruct (split_aux s) as [cur more].
  cbn [snd] in IH. destruct (Ascii.eqb c (ascii_of_nat 10)); cbn; lia.
Qed.

Lemma split_lines_count (s : string) :
  length (split_lines s) = S (count_newlines s).
Proof.
  unfold split_lines. pose proof (split_aux_count s) as H.
  destruct (split_aux s) as [cur more]. cbn [snd] in H. cbn. now rewrite H.
Qed.

Lemma count_newlines_append (a b : string) :
  count_newlines (a ++ b) = (count_newlines a + count_newlines b)%nat.
Proof.
  induction a as [|c a IH]; [reflexivity|].
  cbn [append count_newlines]. rewrite IH. lia.
Qed.

Lemma count_newlines_terminated (items : list string) :
  count_newlines (terminated (map (fun item => "- " ++ item) items))
  = (length items + list_sum (map count_newlines items))%nat.
Proof.
  induction items as [|item items IH]; [reflexivity|].
  cbn [map terminated length]. unfold list_sum in *. cbn [fold_right].
  rewrite !count_newlines_append, IH.
  change (count_newlines newline) with 1%nat.
  change (count_newlines "- ") with 0%nat. lia.
Qed.

(** X20.  The items of the feedback are written as they are, newlines
    included: for a non-empty list of strings the feedback section of the
    request has three lines more than there are items, plus one line for
    every newline inside an item; when no item holds a newline these lines
    are an empty line, the heading, one line "- item" per item, and an
    empty last line. *)
Theorem feedback_section_line_count (self : GeneratorAgent.t) grade topic
    (items : list string) rt tr :
  items <> [] ->
  exists input fs,
    snd (GeneratorAgent.generate self grade topic (PList (map PStr items))
           rt tr)
    = (tr ++ [Generate grade topic (PList (map PStr items));
              Invoke (GeneratorAgent.chain self) input])%list
    /\ getitem input "feedback_section" = Returned (PStr fs)
    /\ length (split_lines fs)
       = (3 + length items + list_sum (map count_newlines items))%nat
    /\ (forallb (fun item => negb (has_newline item)) items = true ->
        split_lines fs
        = "" :: "FEEDBACK FROM REVIEWER (Address these issues):"
          :: (map (fun item => ("- " ++ item)%string) items ++ [""])%list).
Proof.
  intros Hne.
  pose proof (feedback_section_of_strings rt items Hne) as Hfs.
  eexists. eexists.
  rewrite (generate_with_section _ _ _ _ _ _ _ Hfs).
  split; [reflexivity|]. split; [reflexivity|]. split.
  - rewrite split_lines_count. unfold GeneratorAgent.feedback_header.
    rewrite !count_newlines_append, count_newlines_terminated.
    change (count_newlines newline) with 1%nat.
    change (count_newlines "FEEDBACK FROM REVIEWER (Address these issues):")
      with 0%nat.
    lia.
  - intros Hnl.
    destruct (feedback_section_lines rt items Hne Hnl) as (fs' & E & L).
    rewrite Hfs in E. injection E as <-. exact L.
Qed.

Lemma feedback_section_line_count_witness :
  exists input fs,
    snd (GeneratorAgent.generate the_generator 4 "Types of angles"
           (PList (map PStr ["Too hard"; "Too long"])) rt_fail [])
    = [Generate 4 "Types of angles"
         (PList (map PStr ["Too hard"; "Too long"]));
       Invoke (GeneratorAgent.chain the_generator) input]
    /\ getitem input "feedback_section" = Returned (PStr fs)
    /\ split_lines fs
       = [""; "FEEDBACK FROM REVIEWER (Address these issues):";
          "- Too hard"; "- Too long"; ""].
Proof.
  destruct (feedback_section_line_count the_generator 4 "Types of angles"
              ["Too hard"; "Too long"] rt_fail [])
    as (input & fs & Htr & Hfs & _ & Hlines).
  - discriminate.
  - exists input, fs. split; [exact Htr|]. split; [exact Hfs|].
    apply Hlines. reflexivity.
Defined.

(** ** The record holds the chains' answers *)

Lemma review_returns_chain_answer (self : ReviewerAgent.t) grade topic
    content rt tr out tr' :
  ReviewerAgent.review self grade topic content rt tr = (Returned out, tr') ->
  answered_by rt (ReviewerAgent.chain self) out.
Proof.
  rewrite review_unfold. cbn zeta. intros [= H _]. unfold answered_by. eauto.
Qed.

(** X21.  The record of a run that returns holds answers of the chains
    as they came: [initial_generation] and the content of a refinement are
    answers of the generator's chain, [initial_review] is an answer of the
    reviewer's chain, and [feedback_addressed] is the review's own
    ["feedback"].  The run alters none of them. *)
Theorem record_holds_chain_answers (self : AgentPipeline.t) grade topic rt
    tr r tr' :
  AgentPipeline.run self grade topic rt tr = (Returned r, tr') ->
  exists gen rev,
    getitem r "initial_generation" = Returned gen
    /\ answered_by rt (GeneratorAgent.chain (AgentPipeline.generator self))
         gen
    /\ getitem r "initial_review" = Returned rev
    /\ answered_by rt (ReviewerAgent.chain (AgentPipeline.reviewer self)) rev
    /\ (getitem r "refinement" = Returned PNone
        \/ exists content,
            getitem r "refinement"
            = Returned (PDict [("content", content);
                               ("feedback_addressed",
                                match getitem rev "feedback" with
                                | Returned fb => fb
                                | Raised _ => PNone
                                end)])
            /\ answered_by rt
                 (GeneratorAgent.chain (AgentPipeline.generator self))
                 content).
Proof.
  intros H.
  destruct (run_returned_inv _ _ _ _ _ _ _ H)
    as (c & tr1 & rv & tr2 & st & Hg & Hr & _ & Hbr).
  exists c, rv.
  pose proof (generate_returns_chain_answer _ _ _ _ _ _ _ _ Hg) as Hc.
  pose proof (review_returns_chain_answer _ _ _ _ _ _ _ _ Hr) as Hrv.
  destruct Hbr as [(_ & -> & _) | (_ & fb & refined & Hfb & Hg2 & ->)].
  - repeat split; try assumption. now left.
  - repeat split; try assumption. right. exists refined. rewrite Hfb.
    split; [reflexivity|].
    exact (generate_returns_chain_answer _ _ _ _ _ _ _ _ Hg2).
Qed.

Lemma record_holds_chain_answers_witness :
  exists gen rev,
    getitem (accepted_record 4 "Types of angles" angles_bundle review_pass)
      "initial_generation" = Returned gen
    /\ answered_by rt_pass (GeneratorAgent.chain the_generator) gen
    /\ getitem (accepted_record 4 "Types of angles" angles_bundle review_pass)
         "initial_review" = Returned rev
    /\ answered_by rt_pass (ReviewerAgent.chain the_reviewer) rev
    /\ (getitem (accepted_record 4 "Types of angles" angles_bundle
                   review_pass) "refinement" = Returned PNone
        \/ exists content,
            getitem (accepted_record 4 "Types of angles" angles_bundle
                       review_pass) "refinement"
            = Returned (PDict [("content", content);
                               ("feedback_addressed",
                                match getitem rev "feedback" with
                                | Returned fb => fb
                                | Raised _ => PNone
                                end)])
            /\ answered_by rt_pass (GeneratorAgent.chain the_generator)
                 content).
Proof.
  apply (record_holds_chain_answers the_pipeline 4 "Types of angles" rt_pass
           [] _
           (snd (AgentPipeline.run the_pipeline 4 "Types of angles"
                   rt_pass []))).
  reflexivity.
Defined.

(** * The outcome of the roles and of a run, request by request *)


(** ** C2: which bundle a run returns *)



(** ** C6: no validation of what a chain answers *)



(** * A run on an output that may refuse a line *)

Lemma run_on_unfold (stdout : Stdout) (self : AgentPipeline.t) grade topic
    rt tr :
  run_on stdout self grade topic rt tr
  = match stdout tr (line_creating grade topic) with
    | Some e => (Raised e, tr)
    | None =>
    match GeneratorAgent.generate (AgentPipeline.generator self) grade topic
            PNone rt (tr ++ [Print (line_creating grade topic)])%list with
    | (Raised e, tr1) => (Raised e, tr1)
    | (Returned c, tr1) =>
    match stdout tr1 line_evaluating with
    | Some e => (Raised e, tr1)
    | None =>
    match ReviewerAgent.review (AgentPipeline.reviewer self) grade topic c
            rt (tr1 ++ [Print line_evaluating])%list with
    | (Raised e, tr2) => (Raised e, tr2)
    | (Returned rv, tr2) =>
    match getitem rv "status" with
    | Raised e => (Raised e, tr2)
    | Returned status =>
        if eq_str status "fail"
        then
          match stdout tr2 line_refining with
          | Some e => (Raised e, tr2)
          | None =>
              match getitem rv "feedback" with
              | Raised e => (Raised e, (tr2 ++ [Print line_refining])%list)
              | Returned fb =>
                  match GeneratorAgent.generate
                          (AgentPipeline.generator self) grade topic fb rt
                          (tr2 ++ [Print line_refining])%list with
                  | (Raised e, tr3) => (Raised e, tr3)
                  | (Returned refined, tr3) =>
                      (Returned
                         (refined_record grade topic c rv refined fb), tr3)
                  end
              end
          end
        else
          match stdout tr2 line_passed with
          | Some e => (Raised e, tr2)
          | None =>
              (Returned (accepted_record grade topic c rv),
               (tr2 ++ [Print line_passed])%list)
          end
    end end end end end.
Proof.
  unfold run_on, bind, print_on, lift, ret.
  fold (line_creating grade topic). fold line_evaluating.
  fold line_refining. fold line_passed.
  destruct (stdout tr (line_creating grade topic)); [reflexivity|].
  destruct (GeneratorAgent.generate _ _ _ PNone _ _) as [[c|e] tr1];
    [|reflexivity].
  destruct (stdout tr1 line_evaluating); [reflexivity|].
  destruct (ReviewerAgent.review _ _ _ _ _ _) as [[rv|e] tr2];
    [|reflexivity].
  destruct (getitem rv "status") as [status|e]; [|reflexivity].
  destruct (eq_str status "fail").
  - destruct (stdout tr2 line_refining); [reflexivity|].
    destruct (getitem rv "feedback") as [fb|e]; [|reflexivity].
    destruct (GeneratorAgent.generate _ _ _ fb _ _) as [[refined|e] tr3];
      reflexivity.
  - destruct (stdout tr2 line_passed); reflexivity.
Qed.

(** On the output that takes every line, [run_on] is [run]. *)
Lemma run_on_takes_every_line (self : AgentPipeline.t) grade topic rt tr :
  run_on takes_every_line self grade topic rt tr
  = AgentPipeline.run self grade topic rt tr.
Proof. rewrite run_on_unfold, run_unfold. reflexivity. Qed.

(** On an output in ASCII the first line of a run is refused: the run
    ends there, before [generate] is entered. *)
Example run_on_ascii_stdout :
  run_on ascii_stdout the_pipeline 4 "Types of angles" rt_pass []
  = (Raised (Exc "UnicodeEncodeError"
               ["'ascii' codec can't encode character"] None), []).
Proof. reflexivity. Qed.

Ltac requests_done :=
  eexists; eexists; split;
  [ cbn [snd]; repeat rewrite <- app_assoc; cbn [app]; reflexivity
  | split; [reflexivity | cbn [length]; lia] ].

(** X10.  A run whose first line the standard output refuses ends with
    the exception of [print], before anything is sent or recorded.  Every
    other run, returning or raising, sends at least one request and at
    most three, and the first is the generator's request for the grade and
    topic with an empty feedback section. *)
Theorem run_on_requests_bounds (stdout : Stdout) (self : AgentPipeline.t)
    grade topic rt tr :
  match stdout tr (line_creating grade topic) with
  | Some e => run_on stdout self grade topic rt tr = (Raised e, tr)
  | None =>
      exists evs later,
        snd (run_on stdout self grade topic rt tr) = (tr ++ evs)%list
        /\ requests evs
           = (GeneratorAgent.chain (AgentPipeline.generator self),
              generator_input rt (AgentPipeline.generator self) grade topic
                "")
             :: later
        /\ (length later <= 2)%nat
  end.
Proof.
  rewrite run_on_unfold.
  destruct (stdout tr (line_creating grade topic)); [reflexivity|].
  rewrite generate_unfold.
  change (feedback_section_of rt PNone) with (@Returned string "").
  cbn zeta iota.
  match goal with |- context [chain_invoke ?a ?b ?c ?d] =>
    destruct (chain_invoke a b c d) as [c1|e1] end; [|requests_done].
  match goal with |- context [stdout ?a line_evaluating] =>
    destruct (stdout a line_evaluating) end; [requests_done|].
  rewrite review_unfold. cbn zeta.
  match goal with |- context [chain_invoke ?a ?b ?c ?d] =>
    destruct (chain_invoke a b c d) as [rv|e2] end; [|requests_done].
  destruct (getitem rv "status") as [status|e3]; [|requests_done].
  destruct (eq_str status "fail").
  - match goal with |- context [stdout ?a line_refining] =>
      destruct (stdout a line_refining) end; [requests_done|].
    destruct (getitem rv "feedback") as [fb|e4]; [|requests_done].
    rewrite generate_unfold. cbn zeta.
    destruct (feedback_section_of rt fb) as [fs|e5]; [|requests_done].
    match goal with |- context [chain_invoke ?a ?b ?c ?d] =>
      destruct (chain_invoke a b c d) as [c2|e6] end; requests_done.
  - match goal with |- context [stdout ?a line_passed] =>
      destruct (stdout a line_passed) end; requests_done.
Qed.

(** X13.  Whatever exception a run ends with was raised by [print] on
    the standard output or by a chain, or is the [KeyError] for a review
    without ["status"] or ["feedback"], or is a [TypeError] (a review that
    is no dictionary, feedback that cannot be iterated).  The pipeline
    raises nothing else of its own. *)
Theorem run_on_error_sources (stdout : Stdout) (self : AgentPipeline.t)
    grade topic rt tr e tr' :
  run_on stdout self grade topic rt tr = (Raised e, tr') ->
  (exists tr0 line, stdout tr0 line = Some e)
  \/ (exists tr0 chain input, chain_invoke rt tr0 chain input = Raised e)
  \/ e = KeyError "status"
  \/ e = KeyError "feedback"
  \/ exc_class e = "TypeError".
Proof.
  rewrite run_on_unfold.
  destruct (stdout tr (line_creating grade topic)) as [e0|] eqn:S1.
  { intros [= <- _]. left. eauto. }
  destruct (GeneratorAgent.generate _ _ _ PNone _ _) as [[c|e1] tr1] eqn:Hg.
  2:{ intros [= <- _].
      destruct (generate_raised _ _ _ _ _ _ _ _ Hg) as [(t0 & i & H)|H];
        [right; left; eauto | auto 6]. }
  destruct (stdout tr1 line_evaluating) as [e0|] eqn:S2.
  { intros [= <- _]. left. eauto. }
  destruct (ReviewerAgent.review _ _ _ _ _ _) as [[rv|e2] tr2] eqn:Hr.
  2:{ intros [= <- _]. rewrite review_unfold in Hr. cbn zeta in Hr.
      injection Hr as Hr _. right. left. eauto. }
  destruct (getitem rv "status") as [status|e3] eqn:Hst.
  2:{ intros [= <- _]. destruct (getitem_raised _ _ _ Hst); auto 6. }
  destruct (eq_str status "fail").
  - destruct (stdout tr2 line_refining) as [e0|] eqn:S3.
    { intros [= <- _]. left. eauto. }
    destruct (getitem rv "feedback") as [fb|e4] eqn:Hfb.
    2:{ intros [= <- _]. destruct (getitem_raised _ _ _ Hfb); auto 6. }
    destruct (GeneratorAgent.generate _ _ _ fb _ _) as [[c2|e5] tr3] eqn:Hg2;
      [discriminate|].
    intros [= <- _].
    destruct (generate_raised _ _ _ _ _ _ _ _ Hg2) as [(t0 & i & H)|H];
      [right; left; eauto | auto 6].
  - destruct (stdout tr2 line_passed) as [e0|] eqn:S4; [|discriminate].
    intros [= <- _]. left. eauto.
Qed.

Lemma run_on_error_sources_witness :
  (exists tr0 line,
      ascii_stdout tr0 line
      = Some (Exc "UnicodeEncodeError"
                ["'ascii' codec can't encode character"] None))
  \/ (exists tr0 chain input,
         chain_invoke rt_pass tr0 chain input
         = Raised (Exc "UnicodeEncodeError"
                     ["'ascii' codec can't encode character"] None))
  \/ Exc "UnicodeEncodeError" ["'ascii' codec can't encode character"] None
     = KeyError "status"
  \/ Exc "UnicodeEncodeError" ["'ascii' codec can't encode character"] None
     = KeyError "feedback"
  \/ exc_class (Exc "UnicodeEncodeError"
                  ["'ascii' codec can't encode character"] None)
     = "TypeError".
Proof.
  apply (run_on_error_sources ascii_stdout the_pipeline 4 "Types of angles"
           rt_pass [] _ []).
  reflexivity.
Defined.

(** * The script and the key of the sidebar *)


(** X16.  When a non-empty key that the system can encode is typed into
    the sidebar, the page either stores it in [os.environ] and the
    pipeline it constructs afterwards is built, whatever the environment
    held before, or, when the key holds the byte zero, ends with the
    [ValueError] of the assignment before any pipeline is constructed. *)
Theorem typed_key_is_stored_or_refused
    (encode_error : string -> option PyExc) (api_key : string)
    (rt : Runtime) (tr : Trace) :
  api_key <> "" ->
  encode_error api_key = None ->
  if has_nul api_key
  then store_api_key encode_error api_key rt
       = Raised (ValueError "embedded null byte")
  else exists rt',
      store_api_key encode_error api_key rt = Returned rt'
      /\ getenv rt' "GROQ_API_KEY" = Some api_key
      /\ AgentPipeline.__init__ rt' tr
         = (Returned the_pipeline,
            (tr ++ [NewChatGroq (GeneratorAgent.llm the_generator);
                    NewChatGroq (ReviewerAgent.llm the_reviewer)])%list).
Proof.
  intros Hne Henc. unfold store_api_key, environ_setitem.
  destruct (api_key =? "") eqn:E.
  { apply String.eqb_eq in E. contradiction. }
  cbn [negb]. rewrite Henc.
  destruct (has_nul api_key); [reflexivity|].
  exists (setenv rt "GROQ_API_KEY" api_key).
  split; [reflexivity|]. split; [reflexivity|].
  assert (K : not_set (getenv (setenv rt "GROQ_API_KEY" api_key)
                         "GROQ_API_KEY") = false) by exact E.
  unfold AgentPipeline.__init__. unfold bind at 1.
  destruct (construction_succeeds _ tr K) as [-> _].
  unfold bind at 1.
  destruct (construction_succeeds _
              (tr ++ [NewChatGroq (GeneratorAgent.llm the_generator)])%list K)
    as [_ ->].
  unfold ret. now rewrite <- app_assoc.
Qed.

Lemma typed_key_is_stored_or_refused_witness :
  exists rt',
    store_api_key (fun _ => None) "gsk_typed" (scripted env_without_key [])
    = Returned rt'
    /\ getenv rt' "GROQ_API_KEY" = Some "gsk_typed"
    /\ AgentPipeline.__init__ rt' []
       = (Returned the_pipeline,
          [NewChatGroq (GeneratorAgent.llm the_generator);
           NewChatGroq (ReviewerAgent.llm the_reviewer)]).
Proof.
  apply (typed_key_is_stored_or_refused (fun _ => None) "gsk_typed"
           (scripted env_without_key []) []).
  - discriminate.
  - reflexivity.
Defined.

Example key_with_nul_is_refused :
  store_api_key (fun _ => None)
    ("gsk" ++ String Ascii.zero "typed") (scripted env_without_key [])
  = Raised (ValueError "embedded null byte").
Proof. reflexivity. Qed.
